(** * check_pgsql_server: threshold and metric evaluation engine

    A shallow embedding of [check_pgsql_server.py] and the properties its
    specification states about it.

    Modelling conventions.
    - Python floats are idealised as exact rationals ([Qc]): no rounding
      error, no infinities, no NaN.
    - Exceptions are values of [exn]; a function that may raise returns an
      [outcome].  Code that touches the file system, the clock or the database
      connection lives in the state-and-error monad [M] over [world].
    - Files are modelled by what [pickle.load] makes of their content, not by
      their bytes.
    - Where interpreters differ, the script is read as CPython 2.7 reads it,
      the only reading under which its rate path can run (pickles in files
      opened in text mode, a [hash] of strings that is the same in every
      process).  Two definitions depend on it: [None] is ordered below every
      number ([py_gt], [py_lt]; Python 3 raises a TypeError there), and
      [round] sends exact halves away from zero ([round_half_away]).  What
      [str] makes of a float, [hash] of a string and the temporary directory
      are parameters of the script. *)

From Stdlib Require Import ZArith QArith Qcanon String Ascii List Lia.
From stdpp Require Import base option gmap strings numbers pretty.

Open Scope string_scope.

(** ** Python values and exceptions *)

(** The exceptions the script can meet.  [NagiosReturn] is the script's own
    class (lines 75-79); [ImproperFormat] stands for the plain
    [Exception('Improper warning/critical format.')] of line 230;
    [OperationalError] and [InterfaceError] are psycopg2's. *)
Inductive exn : Type :=
  | NagiosReturn (message : string) (code : Z)
  | ImproperFormat
  | IOError
  | EOFError
  | TypeError
  | ValueError
  | KeyError
  | IndexError
  | AttributeError
  | ZeroDivisionError
  | UnpicklingError
  | OperationalError
  | InterfaceError.

Inductive outcome (A : Type) : Type :=
  | Ok (a : A)
  | Raise (e : exn).
Arguments Ok {A} a.
Arguments Raise {A} e.

(** A number or [None]: what a database cell, [self.result] or a pickled
    field can hold. *)
Inductive value : Type :=
  | VNone
  | VNum (q : Qc).

Definition qz (z : Z) : Qc := Q2Qc (inject_Z z).

(** [bool(v)]: [None] and zero are false. *)
Definition truthy (v : value) : bool :=
  match v with
  | VNone => false
  | VNum q => negb (bool_decide (q = qz 0))
  end.

(** [v > x] and [v < x] for a float [x].  CPython 2 orders [None] below every
    number. *)
Definition py_gt (v : value) (x : Qc) : bool :=
  match v with
  | VNone => false
  | VNum q => bool_decide (x < q)%Qc
  end.

Definition py_lt (v : value) (x : Qc) : bool :=
  match v with
  | VNone => true
  | VNum q => bool_decide (q < x)%Qc
  end.

(** [float(v)] *)
Definition py_float_of (v : value) : outcome Qc :=
  match v with
  | VNone => Raise TypeError
  | VNum q => Ok q
  end.

(** ** Range specifications (lines 214-230) *)

Definition is_digit (c : ascii) : bool :=
  (48 <=? nat_of_ascii c)%nat && (nat_of_ascii c <=? 57)%nat.

Definition digit_val (c : ascii) : Z := Z.of_nat (nat_of_ascii c) - 48.

(** The longest prefix matching [[0-9]*], and what follows it. *)
Fixpoint span_digits (s : string) : string * string :=
  match s with
  | String c r =>
      if is_digit c
      then let '(d, t) := span_digits r in (String c d, t)
      else (EmptyString, s)
  | EmptyString => (EmptyString, EmptyString)
  end.

(** The pieces of a text matched by [-?[0-9]+(\.[0-9]+)?]; [ft_frac] is empty
    when the optional group did not take part. *)
Record float_text : Type := FloatText {
  ft_neg : bool;
  ft_int : string;
  ft_frac : string
}.

Definition frac_text (fr : string) : string :=
  match fr with
  | EmptyString => ""
  | _ => "." +:+ fr
  end.

(** The text matched, put together again from its pieces. *)
Definition text_of (f : float_text) : string :=
  (if ft_neg f then "-" else "") +:+ ft_int f +:+ frac_text (ft_frac f).

(** [[0-9]+(\.[0-9]+)?] at the head of [s1].  The quantifiers are greedy; the
    optional group is given up when no digit follows the point. *)
Definition scan_unsigned (neg : bool) (s1 : string)
  : option (float_text * string) :=
  let '(ip, s2) := span_digits s1 in
  match ip with
  | EmptyString => None
  | _ =>
      let without_fraction := Some (FloatText neg ip EmptyString, s2) in
      match s2 with
      | String c r =>
          if bool_decide (c = "."%char) then
            let '(fp, s3) := span_digits r in
            match fp with
            | EmptyString => without_fraction
            | _ => Some (FloatText neg ip fp, s3)
            end
          else without_fraction
      | EmptyString => without_fraction
      end
  end.

(** [-?[0-9]+(\.[0-9]+)?] at the head of [s]. *)
Definition scan_float (s : string) : option (float_text * string) :=
  match s with
  | String c r =>
      if bool_decide (c = "-"%char) then scan_unsigned true r
      else scan_unsigned false s
  | EmptyString => None
  end.

Fixpoint digits_val (acc : Z) (s : string) : Z :=
  match s with
  | EmptyString => acc
  | String c r => digits_val (10 * acc + digit_val c) r
  end.

Definition float_value (f : float_text) : Qc :=
  let n := digits_val 0 (ft_int f +:+ ft_frac f) in
  let d := Z.to_pos (10 ^ Z.of_nat (String.length (ft_frac f))) in
  Q2Qc ((if ft_neg f then - n else n) # d).

(** [float(text)] on decimal text of the shape the patterns capture; on other
    text CPython's [float] is not modelled (it is never applied to any). *)
Definition py_float (s : string) : outcome Qc :=
  match scan_float s with
  | Some (f, EmptyString) => Ok (float_value f)
  | _ => Raise ValueError
  end.

(** [$]: the end of the string, or just before a newline that ends it. *)
Definition at_dollar (s : string) : bool :=
  match s with
  | EmptyString => true
  | String c EmptyString => bool_decide (c = "010"%char)
  | _ => false
  end.

(** The five patterns of [actions], in the order of the list. *)
Inductive pattern : Type :=
  | PFirst        (* ^N$     *)
  | PFirstColon   (* ^N:$    *)
  | PTildeFirst   (* ^~:N$   *)
  | PFirstSecond  (* ^N:M$   *)
  | PAtFirstSecond. (* ^@N:M$ *)

(** The named groups of a match object. *)
Record groups : Type := Groups {
  g_first : string;
  g_second : string
}.

Definition expect (c : ascii) (s : string) : option string :=
  match s with
  | String c' r => if bool_decide (c' = c) then Some r else None
  | EmptyString => None
  end.

Definition match_end (first second rest : string) : option groups :=
  if at_dollar rest then Some (Groups first second) else None.

Definition match_first_second (s : string) : option groups :=
  match scan_float s with
  | Some (f, r) =>
      match expect ":" r with
      | Some r1 =>
          match scan_float r1 with
          | Some (g, r2) => match_end (text_of f) (text_of g) r2
          | None => None
          end
      | None => None
      end
  | None => None
  end.

(** [re.match(regstr, nagstring)] for each of the five patterns. *)
Definition re_match (p : pattern) (s : string) : option groups :=
  match p with
  | PFirst =>
      match scan_float s with
      | Some (f, r) => match_end (text_of f) "" r
      | None => None
      end
  | PFirstColon =>
      match scan_float s with
      | Some (f, r) =>
          match expect ":" r with
          | Some r1 => match_end (text_of f) "" r1
          | None => None
          end
      | None => None
      end
  | PTildeFirst =>
      match expect "~" s with
      | Some s1 =>
          match expect ":" s1 with
          | Some s2 =>
              match scan_float s2 with
              | Some (f, r) => match_end (text_of f) "" r
              | None => None
              end
          | None => None
          end
      | None => None
      end
  | PFirstSecond => match_first_second s
  | PAtFirstSecond =>
      match expect "@" s with
      | Some s1 => match_first_second s1
      | None => None
      end
  end.

(** The lambda paired with each pattern, applied to the match object [y]. *)
Definition action (p : pattern) (v : value) (y : groups) : outcome bool :=
  match p with
  | PFirst =>
      match py_float (g_first y) with
      | Ok n => Ok (py_gt v n || py_lt v (qz 0))
      | Raise e => Raise e
      end
  | PFirstColon =>
      match py_float (g_first y) with
      | Ok n => Ok (py_lt v n)
      | Raise e => Raise e
      end
  | PTildeFirst =>
      match py_float (g_first y) with
      | Ok n => Ok (py_gt v n)
      | Raise e => Raise e
      end
  | PFirstSecond =>
      match py_float (g_first y) with
      | Ok n =>
          if py_lt v n then Ok true
          else match py_float (g_second y) with
               | Ok m => Ok (py_gt v m)
               | Raise e => Raise e
               end
      | Raise e => Raise e
      end
  | PAtFirstSecond =>
      match py_float (g_first y) with
      | Ok n =>
          if py_lt v n then Ok false
          else match py_float (g_second y) with
               | Ok m => Ok (negb (py_gt v m))
               | Raise e => Raise e
               end
      | Raise e => Raise e
      end
  end.

Definition actions : list pattern :=
  [PFirst; PFirstColon; PTildeFirst; PFirstSecond; PAtFirstSecond].

(** The [for regstr, func in actions] loop: the first pattern that matches
    decides; falling off the end raises. *)
Fixpoint first_match (acts : list pattern) (s : string) (v : value)
  : outcome bool :=
  match acts with
  | [] => Raise ImproperFormat
  | p :: rest =>
      match re_match p s with
      | Some y => action p v y
      | None => first_match rest s v
      end
  end.

(** [not nagstring]: [None] and the empty string. *)
Definition not_nagstring (nagstring : option string) : bool :=
  match nagstring with
  | None => true
  | Some EmptyString => true
  | Some _ => false
  end.

Definition is_within_range (nagstring : option string) (v : value)
  : outcome bool :=
  if not_nagstring nagstring then Ok false
  else first_match actions (default "" nagstring) v.

(** ** The error monad and the state-and-error monad *)

Definition obind {A B : Type} (m : outcome A) (f : A -> outcome B) : outcome B :=
  match m with
  | Ok a => f a
  | Raise e => Raise e
  end.

Notation "'try!' x := m 'in' k" := (obind m (fun x => k))
  (at level 10, x name, m at level 100, k at level 200, only parsing).

(** ** String formatting (line 69) *)

Definition numeric_conversion (c : ascii) : bool :=
  existsb (fun d => bool_decide (c = d))
    (list_ascii_of_string "diouxXeEfFgG").

(** [template % (arg)] for a string [arg], read left to right.  [%s] consumes
    the argument and [%%] is a literal percent sign; a numeric conversion is a
    TypeError on a string, as are a second [%s] and an argument that is never
    consumed; a [%] that ends the template or precedes any other character is
    a ValueError.  (Flags, widths, precisions, mapping keys, [%r] and [%c] are
    not modelled; no template of the mode table uses them.) *)
Fixpoint py_mod_from (template arg : string) (used : bool) : outcome string :=
  match template with
  | EmptyString => if used then Ok EmptyString else Raise TypeError
  | String "%" r =>
      match r with
      | EmptyString => Raise ValueError
      | String c r' =>
          if bool_decide (c = "%"%char) then
            try! t := py_mod_from r' arg used in Ok (String "%" t)
          else if bool_decide (c = "s"%char) then
            if used then Raise TypeError
            else try! t := py_mod_from r' arg true in Ok (arg +:+ t)
          else if numeric_conversion c then Raise TypeError
          else Raise ValueError
      end
  | String c r => try! t := py_mod_from r arg used in Ok (String c t)
  end.

Definition py_mod (template arg : string) : outcome string :=
  py_mod_from template arg false.

(** ** Options, as parse_args leaves them (lines 168-212) *)

Record options : Type := Options {
  hostname : string;
  warning : option string;
  critical : option string;
  mode : option string
}.

(** ** The world outside the process *)

(** What [pickle.load] finds in a file: nothing at all, a complete pickle of a
    dictionary with string keys, or bytes on which it raises [e]. *)
Inductive content : Type :=
  | Blank
  | Pickled (d : gmap string value)
  | Damaged (e : exn).

Record file : Type := File {
  readable : bool;
  writable : bool;
  data : content
}.

(** The files by name, whether a new file can be created, the successive
    readings of [time.time()] with the number already taken, and the queries
    the server has been sent, latest first. *)
Record world : Type := World {
  files : gmap string file;
  creatable : bool;
  time_src : nat -> Qc;
  reads : nat;
  executed : list string
}.

Definition set_files (fs : gmap string file) (w : world) : world :=
  World fs (creatable w) (time_src w) (reads w) (executed w).

Definition M (A : Type) : Type := world -> outcome A * world.

Definition ret {A : Type} (a : A) : M A := fun w => (Ok a, w).
Definition raise {A : Type} (e : exn) : M A := fun w => (Raise e, w).
Definition lift {A : Type} (o : outcome A) : M A := fun w => (o, w).

Definition bind {A B : Type} (m : M A) (f : A -> M B) : M B :=
  fun w =>
    match m w with
    | (Ok a, w') => f a w'
    | (Raise e, w') => (Raise e, w')
    end.

Notation "'do!' x := m 'in' k" := (bind m (fun x => k))
  (at level 10, x name, m at level 100, k at level 200, only parsing).

(** [time.time()] *)
Definition time_time : M Qc :=
  fun w =>
    (Ok (time_src w (reads w)),
     World (files w) (creatable w) (time_src w) (S (reads w)) (executed w)).

(** [open(name)] followed by reading the whole file. *)
Definition open_read (name : string) : M content :=
  fun w =>
    match files w !! name with
    | Some f => if readable f then (Ok (data f), w) else (Raise IOError, w)
    | None => (Raise IOError, w)
    end.

(** [open(name, 'w')], writing [c], [close()]: the file is created when it
    is missing and its old content is lost when it is not. *)
Definition open_write (name : string) (c : content) : M unit :=
  fun w =>
    match files w !! name with
    | Some f =>
        if writable f
        then (Ok tt, set_files (<[name := File (readable f) true c]> (files w)) w)
        else (Raise IOError, w)
    | None =>
        if creatable w
        then (Ok tt, set_files (<[name := File true true c]> (files w)) w)
        else (Raise IOError, w)
    end.

Definition pickle_load (c : content) : outcome (gmap string value) :=
  match c with
  | Blank => Raise EOFError
  | Pickled d => Ok d
  | Damaged e => Raise e
  end.

(** [d[key]] *)
Definition getitem (d : gmap string value) (key : string) : outcome value :=
  match d !! key with
  | Some v => Ok v
  | None => Raise KeyError
  end.

(** A database connection: the rows a query yields, or the fault it raises. *)
Definition connection : Type := string -> outcome (list (list value)).

(** [cur = connection.cursor(); cur.execute(query)] *)
Definition cursor_execute (conn : connection) (query : string)
  : M (list (list value)) :=
  fun w =>
    (conn query,
     World (files w) (creatable w) (time_src w) (reads w) (query :: executed w)).

(** ** Arithmetic on numbers *)

(** [round(x, 2)]: the nearest multiple of 1/100, halves away from zero. *)
Definition round_half_away (x : Q) : Z :=
  let n := (Qnum x * 200)%Z in
  let d := Zpos (Qden x) in
  if (0 <=? Qnum x)%Z
  then ((n + d) / (2 * d))%Z
  else (- ((- n + d) / (2 * d)))%Z.

Definition round2 (x : Qc) : Qc := Q2Qc (round_half_away x # 100).

(** [a - b], [a / b]: a TypeError on [None], a ZeroDivisionError on zero. *)
Definition py_sub (a b : value) : outcome Qc :=
  match a, b with
  | VNum x, VNum y => Ok (x - y)%Qc
  | _, _ => Raise TypeError
  end.

Definition py_div (x : Qc) (b : value) : outcome Qc :=
  match b with
  | VNum y => if bool_decide (y = qz 0) then Raise ZeroDivisionError else Ok (x / y)%Qc
  | VNone => Raise TypeError
  end.

(** [b != 0] *)
Definition py_ne_zero (b : value) : bool :=
  match b with
  | VNone => true
  | VNum y => negb (bool_decide (y = qz 0))
  end.

(** [[x[0] for x in rows]] *)
Fixpoint first_cells (rows : list (list value)) : outcome (list value) :=
  match rows with
  | [] => Ok []
  | [] :: _ => Raise IndexError
  | (c :: _) :: rest => try! t := first_cells rest in Ok (c :: t)
  end.

(** ** The script *)

(** The classes of lines 81-166. *)
Inductive class : Type :=
  | MSSQLQuery
  | MSSQLDivideQuery
  | MSSQLDeltaQuery.

(** [self.query_result]: one cell, or the first cell of every row. *)
Inductive raw : Type :=
  | Scalar (v : value)
  | Column (l : list value).

(** An object of one of the classes.  [query_result] and [result] do not exist until
    [run_on_connection] and [calculate_result] have assigned them. *)
Record query_object : Type := QueryObject {
  cls : class;
  query : string;
  opts : options;
  label : string;
  unit_ : string;
  stdout : string;
  host : string;
  modifier : Qc;
  query_result : option raw;
  result : option value
}.

Definition set_query_result (r : raw) (self : query_object) : query_object :=
  QueryObject (cls self) (query self) (opts self) (label self) (unit_ self)
    (stdout self) (host self) (modifier self) (Some r) (result self).

Definition set_result (v : value) (self : query_object) : query_object :=
  QueryObject (cls self) (query self) (opts self) (label self) (unit_ self)
    (stdout self) (host self) (modifier self) (query_result self) (Some v).

(** An entry of [MODES]; the keys an entry may leave out are optional. *)
Record mode_entry : Type := ModeEntry {
  m_help : string;
  m_stdout : option string;
  m_label : option string;
  m_unit : option string;
  m_type : option string;
  m_modifier : option Qc;
  m_query : string
}.

Definition CON_QUERY : string :=
  "SELECT refclassid FROM pg_shdepend WHERE refobjid=10;".
Definition CPU_QUERY : string :=
  "SELECT refclassid FROM pg_shdepend WHERE refobjid=10;".

Definition MODES : gmap string mode_entry :=
  <["connections" :=
      ModeEntry "Number of open connections"
        (Some "Number of open connections is %s") (Some "connections")
        None (Some "standard") None CON_QUERY]>
  (<["cpu" :=
      ModeEntry "Server CPU utilization"
        (Some "Current CPU utilization is %s%%") (Some "cpu")
        (Some "%") None None CPU_QUERY]> ∅).

(** [__init__] (lines 83-90) applied to [**sql_query]. *)
Definition new (c : class) (e : mode_entry) (o : options) (h : string)
  : query_object :=
  QueryObject c (m_query e) o (default "" (m_label e)) (default "" (m_unit e))
    (default "" (m_stdout e)) h (default (qz 1) (m_modifier e)) None None.

Section Script.

(** What the interpreter and its environment supply: [str] of a float,
    [hash] of a string, [tempfile.gettempdir()]. *)
Variable float_str : Qc -> string.
Variable hash : string -> Z.
Variable tmpdir : string.

(** [str(result)] *)
Definition py_str (v : value) : string :=
  match v with
  | VNone => "None"
  | VNum q => float_str q
  end.

(** Lines 57-73.  The function never returns: it raises [NagiosReturn], or
    whatever the range check or the formatting raised first. *)
Definition return_nagios (o : options) (stdout : string) (result : value)
    (unit_ label : string) : exn :=
  let outcome_ :=
    try! prefix_code :=
      (try! c := is_within_range (critical o) result in
       if c then Ok ("CRITICAL: ", 2%Z)
       else
         try! w := is_within_range (warning o) result in
         if w then Ok ("WARNING: ", 1%Z) else Ok ("OK: ", 0%Z)) in
    let strresult := py_str result in
    try! stdout' :=
      (match py_mod stdout strresult with
       | Ok s => Ok s
       | Raise TypeError => Ok stdout
       | Raise e => Raise e
       end) in
    Ok (NagiosReturn
          (fst prefix_code +:+ stdout' +:+ "|" +:+ label +:+ "=" +:+
           strresult +:+ unit_ +:+ ";" +:+ default "" (warning o) +:+ ";" +:+
           default "" (critical o) +:+ ";;")
          (snd prefix_code)) in
  match outcome_ with
  | Ok e => e
  | Raise e => e
  end.

(** Lines 92-95 and 123-126. *)
Definition run_on_connection (self : query_object) (conn : connection)
  : M query_object :=
  do! rows := cursor_execute conn (query self) in
  match cls self with
  | MSSQLDivideQuery =>
      do! col := lift (first_cells rows) in
      ret (set_query_result (Column col) self)
  | _ =>
      match rows with
      | [] => raise TypeError
      | [] :: _ => raise IndexError
      | (c :: _) :: _ => ret (set_query_result (Scalar c) self)
      end
  end.

(** Lines 130-133. *)
Definition make_pickle_name (self : query_object) : string :=
  tmpdir +:+ "/mssql-" +:+ pretty (hash (host self +:+ query self)) +:+ ".tmp".

(** Lines 104-105. *)
Definition calculate_result_query (self : query_object) : M query_object :=
  match query_result self with
  | None => raise AttributeError
  | Some (Column _) => raise TypeError
  | Some (Scalar v) =>
      do! x := lift (py_float_of v) in
      ret (set_result (VNum (x * modifier self)%Qc) self)
  end.

(** Lines 117-121. *)
Definition calculate_result_divide (self : query_object) : M query_object :=
  match query_result self with
  | None => raise AttributeError
  | Some (Scalar _) => raise TypeError
  | Some (Column l) =>
      let float_of_first :=
        match l !! 0%nat with
        | Some a => py_float_of a
        | None => Raise IndexError
        end in
      match l !! 1%nat with
      | None => raise IndexError
      | Some b =>
          if py_ne_zero b then
            do! a := lift float_of_first in
            do! quot := lift (py_div a b) in
            ret (set_result (VNum (round2 (quot * modifier self)%Qc)) self)
          else
            do! a := lift float_of_first in
            ret (set_result (VNum (a * modifier self)%Qc) self)
      end
  end.

(** The dictionary line 148 falls back on. *)
Definition no_last_run : gmap string value :=
  <["time" := VNone]> (<["value" := VNone]> ∅).

(** The dictionary line 161 builds. *)
Definition new_run (t : Qc) (v : value) : gmap string value :=
  <["time" := VNum t]> (<["query_result" := v]> ∅).

(** Lines 135-166. *)
Definition calculate_result_delta (self : query_object) : M query_object :=
  let picklename := make_pickle_name self in
  do! tmpfile :=
    (fun w =>
       match open_read picklename w with
       | (Raise IOError, w') =>
           (do! _ := open_write picklename Blank in open_read picklename) w'
       | r => r
       end) in
  do! last_run :=
    lift (match pickle_load tmpfile with
          | Raise EOFError => Ok no_last_run
          | r => r
          end) in
  do! last_time := lift (getitem last_run "time") in
  do! res :=
    (if truthy last_time then
       let old_time := last_time in
       do! new_time := time_time in
       do! old_val := lift (getitem last_run "query_result") in
       do! new_val := lift (match query_result self with
                            | Some (Scalar v) => Ok v
                            | Some (Column _) => Raise TypeError
                            | None => Raise AttributeError
                            end) in
       do! dv := lift (py_sub new_val old_val) in
       do! dt := lift (py_sub (VNum new_time) old_time) in
       do! rate := lift (py_div dv (VNum dt)) in
       ret (VNum (rate * modifier self)%Qc)
     else ret VNone) in
  do! now := time_time in
  do! qr := lift (match query_result self with
                  | Some (Scalar v) => Ok v
                  | Some (Column _) => Raise TypeError
                  | None => Raise AttributeError
                  end) in
  do! _ := open_write picklename (Pickled (new_run now qr)) in
  ret (set_result res self).

(** Method resolution for [self.calculate_result()]. *)
Definition calculate_result (self : query_object) : M query_object :=
  match cls self with
  | MSSQLQuery => calculate_result_query self
  | MSSQLDivideQuery => calculate_result_divide self
  | MSSQLDeltaQuery => calculate_result_delta self
  end.

(** Lines 97-102. *)
Definition finish (self : query_object) : M unit :=
  match result self with
  | None => raise AttributeError
  | Some r =>
      raise (return_nagios (opts self) (stdout self) r (unit_ self)
               (label self))
  end.

(** Lines 107-110. *)
Definition do_ (self : query_object) (conn : connection) : M unit :=
  do! self1 := run_on_connection self conn in
  do! self2 := calculate_result self1 in
  finish self2.

(** Lines 262-273, over the mode table [modes].  The call of [do_] sits in
    the [else] branch. *)
Definition execute_query (modes : gmap string mode_entry) (mssql : connection)
    (o : options) (h : string) : M unit :=
  match mode o ≫= (modes !!.) with
  | None => raise KeyError
  | Some sql_query =>
      let query_type := m_type sql_query in
      if bool_decide (query_type = Some "delta") then
        let mssql_query := new MSSQLDeltaQuery sql_query o h in
        ret tt
      else if bool_decide (query_type = Some "divide") then
        let mssql_query := new MSSQLDivideQuery sql_query o h in
        ret tt
      else
        let mssql_query := new MSSQLQuery sql_query o h in
        do_ mssql_query mssql
  end.

End Script.

(** Lines 292-310: the exit status of the process, given how [main] ended. *)
Definition exit_status (r : outcome unit) : Z :=
  match r with
  | Ok _ => 0
  | Raise (NagiosReturn _ code) => code
  | Raise _ => 3
  end.

(** * Notions the properties are stated with *)

(** ** Decimal literals and the five accepted forms of a threshold *)

Fixpoint digits_only (s : string) : bool :=
  match s with
  | EmptyString => true
  | String c r => is_digit c && digits_only r
  end.

(** A signed decimal with an optional fractional part. *)
Definition wf_float (f : float_text) : Prop :=
  ft_int f <> "" /\ digits_only (ft_int f) = true /\ digits_only (ft_frac f) = true.

(** Text that neither continues a run of digits nor opens a fraction. *)
Definition stops (rest : string) : Prop :=
  match rest with
  | EmptyString => True
  | String c _ => is_digit c = false /\ c <> "."%char
  end.

Inductive range_spec : Type :=
  | AtMost (n : float_text)
  | BelowOnly (n : float_text)
  | AboveOnly (n : float_text)
  | Outside (n m : float_text)
  | Inside (n m : float_text).

Definition wf_spec (r : range_spec) : Prop :=
  match r with
  | AtMost n | BelowOnly n | AboveOnly n => wf_float n
  | Outside n m | Inside n m => wf_float n /\ wf_float m
  end.

Definition spec_text (r : range_spec) : string :=
  match r with
  | AtMost n => text_of n
  | BelowOnly n => text_of n +:+ ":"
  | AboveOnly n => "~:" +:+ text_of n
  | Outside n m => text_of n +:+ ":" +:+ text_of m
  | Inside n m => "@" +:+ text_of n +:+ ":" +:+ text_of m
  end.

Definition pattern_of (r : range_spec) : pattern :=
  match r with
  | AtMost _ => PFirst
  | BelowOnly _ => PFirstColon
  | AboveOnly _ => PTildeFirst
  | Outside _ _ => PFirstSecond
  | Inside _ _ => PAtFirstSecond
  end.

(** The alert condition of the table, for a number [v]. *)
Definition alerts (r : range_spec) (v : Qc) : Prop :=
  match r with
  | AtMost n => (float_value n < v \/ v < qz 0)%Qc
  | BelowOnly n => (v < float_value n)%Qc
  | AboveOnly n => (float_value n < v)%Qc
  | Outside n m => (v < float_value n \/ float_value m < v)%Qc
  | Inside n m => (float_value n <= v /\ v <= float_value m)%Qc
  end.

(** What the lambdas compute, for any value. *)
Definition eval (r : range_spec) (v : value) : bool :=
  match r with
  | AtMost n => py_gt v (float_value n) || py_lt v (qz 0)
  | BelowOnly n => py_lt v (float_value n)
  | AboveOnly n => py_gt v (float_value n)
  | Outside n m => py_lt v (float_value n) || py_gt v (float_value m)
  | Inside n m => negb (py_lt v (float_value n) || py_gt v (float_value m))
  end.

Definition newline : string := String "010"%char EmptyString.

(** Where [$] matches: at the very end, or before one last newline. *)
Definition eol (tail : string) : Prop := tail = "" \/ tail = newline.

(** The named groups a match on the text of [r] captures. *)
Definition groups_of (r : range_spec) : groups :=
  match r with
  | AtMost n | BelowOnly n | AboveOnly n => Groups (text_of n) ""
  | Outside n m | Inside n m => Groups (text_of n) (text_of m)
  end.

Global Instance pattern_eq_dec : EqDecision pattern.
Proof. solve_decision. Defined.

(** A threshold as the operator gives it: none, or one of the five forms. *)
Definition threshold_text (t : option range_spec) : option string :=
  spec_text <$> t.

Definition wf_threshold (t : option range_spec) : Prop :=
  match t with
  | Some r => wf_spec r
  | None => True
  end.

Definition threshold_alerts (t : option range_spec) (v : Qc) : Prop :=
  match t with
  | Some r => alerts r v
  | None => False
  end.

(** ** Message templates *)

(** A template whose only directives are [%s] and [%%]. *)
Fixpoint plain_template (t : string) : bool :=
  match t with
  | EmptyString => true
  | String c r =>
      if bool_decide (c = "%"%char) then
        match r with
        | EmptyString => false
        | String d r' =>
            (bool_decide (d = "%"%char) || bool_decide (d = "s"%char))
            && plain_template r'
        end
      else plain_template r
  end.

(** ** Numbers with two decimal places *)

Definition two_decimals (x : Qc) : Prop := exists z : Z, x = Q2Qc (z # 100).

(** ** Results of a computation step *)

(** [self.result] after a call of [calculate_result], or what it raised. *)
Definition result_of (r : outcome query_object * world) : outcome (option value) :=
  match fst r with
  | Ok self => Ok (result self)
  | Raise e => Raise e
  end.

(** ** Sample surroundings for the examples *)

(** A rendering of numbers, a hash and a clock to run the script on: any
    would do. *)
Definition ratio_str (q : Qc) : string :=
  pretty (Qnum q) +:+ "/" +:+ pretty (Zpos (Qden q)).

Definition length_hash (s : string) : Z := Z.of_nat (String.length s).

Definition every_ten_seconds (n : nat) : Qc := qz (100 + 10 * Z.of_nat n).

Definition fresh_world : world := World ∅ true every_ten_seconds 0 [].

(** The prefix and exit code of each severity. *)
Definition severity (crit warn : bool) : string * Z :=
  if crit then ("CRITICAL: ", 2%Z)
  else if warn then ("WARNING: ", 1%Z)
  else ("OK: ", 0%Z).

Definition five : float_text := FloatText false "5" "".
Definition ten : float_text := FloatText false "10" "".
Definition twenty : float_text := FloatText false "20" "".

(** A mode table with rate and ratio checks besides the two of the script. *)
Definition more_modes : gmap string mode_entry :=
  <["transactions" :=
      ModeEntry "Transactions per second"
        (Some "Transactions per second is %s") (Some "transactions")
        None (Some "delta") None "SELECT sum(xact_commit) FROM pg_stat_database;"]>
  (<["cachehit" :=
      ModeEntry "Cache hit ratio"
        (Some "Cache hit ratio is %s%%") (Some "cachehit")
        (Some "%") (Some "divide") (Some (qz 100))
        "SELECT blks FROM pg_cache;"]> MODES).

Definition one_row (z : Z) : connection := fun _ => Ok [[VNum (qz z)]].

(** The state a call leaves behind: the one file rewritten, [n] more clock
    readings taken. *)
Definition after_call (name : string) (f : file) (n : nat) (w : world) : world :=
  World (<[name := f]> (files w)) (creatable w) (time_src w) (n + reads w)
    (executed w).

(** A rate check of [query] on [host], holding the sample [x]. *)
Definition rate_on (host query : string) (x : Z) : query_object :=
  QueryObject MSSQLDeltaQuery query (Options host None None None)
    "rate" "" "Rate is %s" host (qz 1) (Some (Scalar (VNum (qz x)))) None.

(** A world whose only file is the state file of [self], holding [c]. *)
Definition world_with (self : query_object) (c : content) : world :=
  World {[ make_pickle_name length_hash "/tmp" self := File true true c ]}
    true every_ten_seconds 0 [].

Definition world_after_first_call : world :=
  after_call (make_pickle_name length_hash "/tmp" (rate_on "db" "q" 10))
    (File true true (Pickled (new_run (qz 100) (VNum (qz 10))))) 1 fresh_world.

(** A ratio check holding the column [l]; a direct check holding [x]. *)
Definition ratio_on (l : list value) : query_object :=
  QueryObject MSSQLDivideQuery "q" (Options "db" None None None)
    "ratio" "" "Ratio is %s" "db" (qz 1) (Some (Column l)) None.

Definition direct_on (x : Z) : query_object :=
  QueryObject MSSQLQuery "q" (Options "db" None None None)
    "value" "" "Value is %s" "db" (qz 1) (Some (Scalar (VNum (qz x)))) None.

(** * The rest of the script: command line, connection, main, self-test *)

(** [not x] for a string that may be [None]. *)
Definition falsy (x : option string) : bool :=
  match x with
  | None => true
  | Some EmptyString => true
  | Some _ => false
  end.

(** What [parser.parse_args()] hands back at line 193: the option values
    (each [None] by default) and, for the mode options in the order of
    [mode.option_list], the destination of each with its flag. *)
Record arguments : Type := Args {
  arg_hostname : option string;
  arg_user : option string;
  arg_password : option string;
  arg_instance : option string;
  arg_port : option string;
  arg_warning : option string;
  arg_critical : option string;
  arg_flags : list (string * bool)
}.

(** The options [parse_args] returns: those the checks read, and those the
    connection is made with. *)
Record parsed : Type := Parsed {
  p_options : options;
  p_user : string;
  p_password : string;
  p_instance : option string;
  p_port : option string
}.

(** [parser.error(message)] ends the process (usage on stderr, status 2). *)
Inductive parsing (A : Type) : Type :=
  | Accept (a : A)
  | ParserError (message : string).
Arguments Accept {A} a.
Arguments ParserError {A} message.

(** Lines 205-210: the loop over the mode options, [mode] being
    [options.mode] so far. *)
Fixpoint select_mode (flags : list (string * bool)) (mode : option string)
  : parsing (option string) :=
  match flags with
  | [] => Accept mode
  | (dest, flag) :: rest =>
      if flag && negb (falsy mode)
      then ParserError "Must choose one and only Mode Option."
      else if flag then select_mode rest (Some dest)
      else select_mode rest mode
  end.

(** Lines 195-212. *)
Definition parse_args (a : arguments) : parsing parsed :=
  if falsy (arg_hostname a) then
    ParserError "Hostname is a required option."
  else if falsy (arg_user a) then
    ParserError "User is a required option."
  else if falsy (arg_password a) then
    ParserError "Password is a required option."
  else if negb (falsy (arg_instance a)) && negb (falsy (arg_port a)) then
    ParserError "Cannot specify both instance and port."
  else
    match select_mode (arg_flags a) None with
    | ParserError message => ParserError message
    | Accept md =>
        Accept (Parsed
                  (Options (default "" (arg_hostname a)) (arg_warning a)
                     (arg_critical a) md)
                  (default "" (arg_user a)) (default "" (arg_password a))
                  (arg_instance a) (arg_port a))
    end.

(** [psycopg2.connect(host, port, user, password)]: a connection, or the
    fault it raises. *)
Definition connector : Type :=
  string -> option string -> string -> string -> outcome connection.

(** Lines 232-243. *)
Definition connect_db (psycopg2_connect : connector) (p : parsed)
  : M (connection * Qc * string) :=
  let host := hostname (p_options p) in
  do! start := time_time in
  do! mssql := lift (psycopg2_connect (hostname (p_options p)) (p_port p)
                       (p_user p) (p_password p)) in
  do! stop := time_time in
  let total := (stop - start)%Qc in
  ret (mssql, total, host).

(** [del d[key]] *)
Definition delitem (d : gmap string mode_entry) (key : string)
  : outcome (gmap string mode_entry) :=
  match d !! key with
  | Some _ => Ok (delete key d)
  | None => Raise KeyError
  end.

(** [options.mode = mode] *)
Definition set_mode (md : string) (o : options) : options :=
  Options (hostname o) (warning o) (critical o) (Some md).

Section Main.

Variable float_str : Qc -> string.
Variable hash : string -> Z.
Variable tmpdir : string.
(** [str(e)] for an exception. *)
Variable exn_str : exn -> string.
Variable psycopg2_connect : connector.

(** Lines 280-289: the loop of [run_tests] over the modes left, with the
    counters so far; the lines it prints, in order. *)
Fixpoint run_tests_loop (modes : gmap string mode_entry) (mssql : connection)
    (o : options) (h : string) (todo : list string) (failed total : nat)
  : M (nat * nat * list string) :=
  match todo with
  | [] => ret (failed, total, [])
  | md :: rest =>
      fun w =>
        let total' := S total in
        let '(r, w') :=
          execute_query float_str hash tmpdir modes mssql (set_mode md o) h w in
        let '(failed', printed) :=
          match r with
          | Ok _ => (failed, [])
          | Raise (NagiosReturn _ _) => (failed, [md +:+ " passed!"])
          | Raise e =>
              (S failed, [md +:+ " failed with: " +:+ exn_str e])
          end in
        match run_tests_loop modes mssql (set_mode md o) h rest failed' total' w' with
        | (Ok (f, t, more), w'') => (Ok (f, t, (printed ++ more)%list), w'')
        | (Raise e, w'') => (Raise e, w'')
        end
  end.

(** Lines 275-290; the value is what was printed.  The keys of the table are
    visited in the order [map_to_list] gives them. *)
Definition run_tests (modes : gmap string mode_entry) (mssql : connection)
    (o : options) (h : string) : M (list string) :=
  do! modes1 := lift (delitem modes "time2connect") in
  do! modes2 := lift (delitem modes1 "test") in
  do! counted := run_tests_loop modes2 mssql o h (map_to_list modes2).*1 0 0 in
  ret (snd counted ++
       [pretty (fst (fst counted)) +:+ "/" +:+ pretty (snd (fst counted))
        +:+ " tests failed."])%list.

(** Lines 247-260: [main] once the arguments are parsed. *)
Definition main_parsed (modes : gmap string mode_entry) (p : parsed)
  : M (list string) :=
  let o := p_options p in
  do! connected := connect_db psycopg2_connect p in
  let mssql := fst (fst connected) in
  let total := snd (fst connected) in
  let h := snd connected in
  if bool_decide (mode o = Some "test") then
    run_tests modes mssql o h
  else if falsy (mode o) || bool_decide (mode o = Some "time2connect") then
    raise (return_nagios float_str o "Time to connect was %ss" (VNum total)
             "s" "time")
  else
    do! _ := execute_query float_str hash tmpdir modes mssql o h in
    ret [].

(** How the process ends: on a parser error, or with what [main] did. *)
Inductive ending : Type :=
  | Usage (message : string)
  | Finished (r : outcome (list string)).

(** Lines 245-260. *)
Definition main (modes : gmap string mode_entry) (a : arguments) (w : world)
  : ending * world :=
  match parse_args a with
  | ParserError message => (Usage message, w)
  | Accept p =>
      let '(r, w') := main_parsed modes p w in (Finished r, w')
  end.

End Main.

(** Lines 292-310, and the status 2 of a parser error. *)
Definition script_status (e : ending) : Z :=
  match e with
  | Usage _ => 2
  | Finished (Ok _) => 0
  | Finished (Raise x) => exit_status (Raise x)
  end.

(** The destinations of the mode options that were given, in order. *)
Definition chosen (flags : list (string * bool)) : list string :=
  (filter (fun df => snd df = true) flags).*1.

(** An option that was given, and not as the empty string. *)
Definition given (x : option string) : Prop := exists s, x = Some s /\ s <> "".

Definition sample_arguments (flags : list (string * bool)) : arguments :=
  Args (Some "db") (Some "nagios") (Some "secret") None (Some "5432")
    (Some "50") (Some "100") flags.

(** Text without a percent sign. *)
Fixpoint no_percent (s : string) : bool :=
  match s with
  | EmptyString => true
  | String c r => negb (bool_decide (c = "%"%char)) && no_percent r
  end.

(** The report line of line 72, around the text [text] of the check. *)
Definition report_line (prefix text label strresult unit_ : string)
    (o : options) : string :=
  prefix +:+ text +:+ "|" +:+ label +:+ "=" +:+ strresult +:+ unit_ +:+ ";"
  +:+ default "" (warning o) +:+ ";" +:+ default "" (critical o) +:+ ";;".

(** A text that is not empty and that none of the five patterns matches. *)
Definition malformed (t : option string) : Prop :=
  exists s, t = Some s /\ s <> "" /\
            Forall (fun p => re_match p s = None) actions.

(** The world once [query] has been sent to the server. *)
Definition sent (query : string) (w : world) : world :=
  World (files w) (creatable w) (time_src w) (reads w) (query :: executed w).

(** A world that differs from [w] by queries sent only. *)
Definition only_sent (w w' : world) : Prop :=
  files w' = files w /\ creatable w' = creatable w /\
  time_src w' = time_src w /\ reads w' = reads w /\
  exists qs, executed w' = (qs ++ executed w)%list.

(** The exceptions the top level turns into a status between 0 and 3. *)
Definition classified (e : exn) : Prop :=
  match e with
  | NagiosReturn _ code => (0 <= code <= 2)%Z
  | _ => True
  end.

(** A driver that does not raise the script's own exception. *)
Definition foreign (psycopg2_connect : connector) : Prop :=
  forall h port user password,
    match psycopg2_connect h port user password with
    | Ok conn =>
        forall q, match conn q with Raise (NagiosReturn _ _) => False | _ => True end
    | Raise (NagiosReturn _ _) => False
    | Raise _ => True
    end.

Definition sample_connector (z : Z) : connector := fun _ _ _ _ => Ok (one_row z).

(** A table that has the two modes the self-test deletes. *)
Definition test_modes : gmap string mode_entry :=
  <["time2connect" := ModeEntry "Time to connect" None None None None None ""]>
  (<["test" := ModeEntry "Run tests" None None None None None ""]> more_modes).

(** The time between the next two readings of the clock. *)
Definition elapsed (w : world) : Qc :=
  (time_src w (S (reads w)) - time_src w (reads w))%Qc.

(** The world after [n] more readings of the clock. *)
Definition later (n : nat) (w : world) : world :=
  World (files w) (creatable w) (time_src w) (n + reads w) (executed w).

(** * Properties *)

(** ** Strings and the scanner *)

Lemma str_app_nil_l (s : string) : "" +:+ s = s.
Proof. reflexivity. Qed.

Lemma str_app_cons (c : ascii) (s t : string) : String c s +:+ t = String c (s +:+ t).
Proof. reflexivity. Qed.

Lemma str_app_nil_r (s : string) : s +:+ "" = s.
Proof. induction s as [|c s IH]; [reflexivity|]. rewrite str_app_cons. by rewrite IH. Qed.

Lemma str_app_assoc (s t u : string) : (s +:+ t) +:+ u = s +:+ (t +:+ u).
Proof.
  induction s as [|c s IH]; [reflexivity|].
  rewrite !str_app_cons. by rewrite IH.
Qed.

Lemma span_digits_app (d rest : string) :
  digits_only d = true ->
  match rest with EmptyString => True | String c _ => is_digit c = false end ->
  span_digits (d +:+ rest) = (d, rest).
Proof.
  intros Hd Hrest. induction d as [|c d IH].
  - rewrite str_app_nil_l. destruct rest as [|c r]; [reflexivity|].
    simpl. by rewrite Hrest.
  - simpl in Hd. apply andb_prop in Hd as [Hc Hd].
    rewrite str_app_cons. simpl. rewrite Hc, (IH Hd). reflexivity.
Qed.

Lemma span_digits_sound (s d r : string) :
  span_digits s = (d, r) ->
  s = d +:+ r /\ digits_only d = true /\
  match r with EmptyString => True | String c _ => is_digit c = false end.
Proof.
  revert d r. induction s as [|c s IH]; intros d r H; simpl in H.
  - by inversion H.
  - destruct (is_digit c) eqn:Hc.
    + destruct (span_digits s) as [d' t] eqn:Hs. inversion H; subst.
      destruct (IH d' r eq_refl) as (-> & Hd & Hr).
      rewrite str_app_cons. simpl. by rewrite Hc, Hd.
    + inversion H; subst. rewrite str_app_nil_l. simpl. by rewrite Hc.
Qed.

Lemma digit_not_minus (c : ascii) : is_digit c = true -> c <> "-"%char.
Proof. intros H ->. discriminate H. Qed.

Lemma scan_unsigned_app (neg : bool) (ip fp rest : string) :
  ip <> "" -> digits_only ip = true -> digits_only fp = true -> stops rest ->
  scan_unsigned neg (ip +:+ frac_text fp +:+ rest)
  = Some (FloatText neg ip fp, rest).
Proof.
  intros Hne Hip Hfp Hrest. unfold scan_unsigned.
  assert (Hstop : match rest with EmptyString => True | String c _ => is_digit c = false end).
  { destruct rest; [done|]. apply Hrest. }
  destruct fp as [|c fp]; unfold frac_text.
  - rewrite str_app_nil_l, (span_digits_app ip rest Hip Hstop).
    destruct ip as [|i ip]; [done|].
    destruct rest as [|c r]; [done|]. destruct Hrest as [_ Hdot].
    by rewrite bool_decide_eq_false_2.
  - change (("." +:+ String c fp) +:+ rest) with (String "." (String c fp +:+ rest)).
    rewrite (span_digits_app ip (String "." (String c fp +:+ rest)) Hip eq_refl).
    destruct ip as [|i ip]; [done|].
    rewrite bool_decide_eq_true_2 by done.
    by rewrite (span_digits_app _ rest Hfp Hstop).
Qed.

Lemma scan_float_app (f : float_text) (rest : string) :
  wf_float f -> stops rest ->
  scan_float (text_of f +:+ rest) = Some (f, rest).
Proof.
  destruct f as [neg ip fp]. intros (Hne & Hip & Hfp) Hrest.
  unfold text_of; simpl in *. rewrite !str_app_assoc.
  pose proof (scan_unsigned_app false ip fp rest Hne Hip Hfp Hrest) as Hu.
  destruct neg.
  - change ("-" +:+ ?x) with (String "-" x). unfold scan_float.
    rewrite bool_decide_eq_true_2 by done.
    by apply scan_unsigned_app.
  - rewrite str_app_nil_l. unfold scan_float.
    destruct ip as [|i ip]; [done|]. simpl in Hip. apply andb_prop in Hip as [Hi Hip].
    rewrite str_app_cons in *.
    rewrite bool_decide_eq_false_2 by by apply digit_not_minus. done.
Qed.

Lemma scan_unsigned_sound (neg : bool) (s : string) (f : float_text) (r : string) :
  scan_unsigned neg s = Some (f, r) ->
  wf_float f /\ ft_neg f = neg /\
  s = ft_int f +:+ frac_text (ft_frac f) +:+ r.
Proof.
  unfold scan_unsigned. destruct (span_digits s) as [ip s2] eqn:Hs.
  apply span_digits_sound in Hs as (-> & Hip & Hs2).
  destruct ip as [|i ip]; [done|].
  assert (Hplain : Some (FloatText neg (String i ip) "", s2) = Some (f, r) ->
    wf_float f /\ ft_neg f = neg /\
    String i ip +:+ s2
    = ft_int f +:+ frac_text (ft_frac f) +:+ r).
  { intros [= <- <-]. by repeat split. }
  destruct s2 as [|c s2]; [done|].
  case_bool_decide as Hc; [|done]. subst c.
  destruct (span_digits s2) as [fp s3] eqn:Hf.
  apply span_digits_sound in Hf as (-> & Hfp & Hs3).
  destruct fp as [|c fp]; [done|].
  intros [= <- <-]. by repeat split.
Qed.

Lemma scan_float_sound (s : string) (f : float_text) (r : string) :
  scan_float s = Some (f, r) -> wf_float f /\ s = text_of f +:+ r.
Proof.
  unfold scan_float. destruct s as [|c s]; [done|].
  case_bool_decide as Hc.
  - subst c. intros H. apply scan_unsigned_sound in H as (Hwf & Hneg & ->).
    split; [done|]. unfold text_of. rewrite Hneg. by rewrite !str_app_assoc.
  - intros H. apply scan_unsigned_sound in H as (Hwf & Hneg & ->).
    split; [done|]. unfold text_of. rewrite Hneg. by rewrite !str_app_assoc.
Qed.

Lemma at_dollar_eol (s : string) : at_dollar s = true <-> eol s.
Proof.
  unfold eol, newline. destruct s as [|c [|d s]]; simpl.
  - split; auto.
  - rewrite bool_decide_eq_true. split.
    + intros ->. by right.
    + intros [H | H]; [discriminate H | by injection H].
  - split; [done | intros [H | H]; discriminate H].
Qed.

Lemma eol_stops (tail : string) : eol tail -> stops tail.
Proof. by intros [-> | ->]. Qed.

Lemma text_of_head (f : float_text) :
  wf_float f ->
  exists c r, text_of f = String c r /\ (c = "-"%char \/ is_digit c = true).
Proof.
  destruct f as [[] [|i ip] fp]; intros (Hne & Hip & _); try done; simpl in *.
  - eexists _, _. split; [reflexivity|]. by left.
  - apply andb_prop in Hip as [Hi _]. exists i, (ip +:+ frac_text fp).
    split; [reflexivity|]. by right.
Qed.

Lemma py_float_text (f : float_text) :
  wf_float f -> py_float (text_of f) = Ok (float_value f).
Proof.
  intros Hf. unfold py_float.
  rewrite <- (str_app_nil_r (text_of f)). by rewrite scan_float_app.
Qed.

Lemma at_dollar_text (f : float_text) (rest : string) :
  wf_float f -> at_dollar (text_of f +:+ rest) = false.
Proof.
  intros Hf. destruct (text_of_head f Hf) as (c & r & -> & Hc).
  rewrite str_app_cons. simpl. destruct (r +:+ rest); [|done].
  apply bool_decide_eq_false. destruct Hc as [-> | Hc]; [done|]. by intros ->.
Qed.

Lemma expect_text (k : ascii) (f : float_text) (rest : string) :
  wf_float f -> is_digit k = false -> k <> "-"%char ->
  expect k (text_of f +:+ rest) = None.
Proof.
  intros Hf Hk1 Hk2. destruct (text_of_head f Hf) as (c & r & -> & Hc).
  rewrite str_app_cons. simpl. rewrite bool_decide_eq_false_2; [done|].
  destruct Hc as [-> | Hc]; [done|]. intros ->. congruence.
Qed.

Lemma scan_float_not_number (c : ascii) (s : string) :
  is_digit c = false -> c <> "-"%char -> scan_float (String c s) = None.
Proof.
  intros Hc Hm. unfold scan_float, scan_unsigned.
  rewrite bool_decide_eq_false_2 by done. simpl. by rewrite Hc.
Qed.

Lemma at_dollar_cons (c : ascii) (s : string) :
  c <> "010"%char -> at_dollar (String c s) = false.
Proof. intros Hc. destruct s; simpl; [|done]. by apply bool_decide_eq_false. Qed.

Lemma expect_sound (c : ascii) (s r : string) :
  expect c s = Some r -> s = String c r.
Proof.
  destruct s as [|c' s]; [done|]. simpl.
  case_bool_decide; [|done]. by intros [= ->]; subst.
Qed.

Lemma match_end_sound (a b rest : string) (g : groups) :
  match_end a b rest = Some g -> eol rest /\ g = Groups a b.
Proof.
  unfold match_end. destruct (at_dollar rest) eqn:Hd; [|done].
  intros [= <-]. split; [by apply at_dollar_eol|done].
Qed.

Lemma match_first_second_sound (s : string) (g : groups) :
  match_first_second s = Some g ->
  exists n m tail, wf_float n /\ wf_float m /\ eol tail /\
    s = text_of n +:+ ":" +:+ text_of m +:+ tail.
Proof.
  unfold match_first_second.
  destruct (scan_float s) as [[n r]|] eqn:Hn; [|done].
  destruct (expect ":" r) as [r1|] eqn:Hc; [|done].
  destruct (scan_float r1) as [[m r2]|] eqn:Hm; [|done].
  intros Hg. apply match_end_sound in Hg as [Ht _].
  apply scan_float_sound in Hn as [Hwn ->].
  apply scan_float_sound in Hm as [Hwm ->].
  apply expect_sound in Hc as ->.
  by exists n, m, r2.
Qed.

(** A pattern matches only the text of a well-formed specification of its
    kind, possibly followed by one final newline. *)
Lemma re_match_sound (p : pattern) (s : string) (g : groups) :
  re_match p s = Some g ->
  exists r tail, wf_spec r /\ pattern_of r = p /\ eol tail /\
    s = spec_text r +:+ tail.
Proof.
  destruct p; simpl.
  - destruct (scan_float s) as [[n r]|] eqn:Hn; [|done].
    intros Hg. apply match_end_sound in Hg as [Ht _].
    apply scan_float_sound in Hn as [Hwn ->].
    by exists (AtMost n), r.
  - destruct (scan_float s) as [[n r]|] eqn:Hn; [|done].
    destruct (expect ":" r) as [r1|] eqn:Hc; [|done].
    intros Hg. apply match_end_sound in Hg as [Ht _].
    apply scan_float_sound in Hn as [Hwn ->]. apply expect_sound in Hc as ->.
    exists (BelowOnly n), r1. simpl. by rewrite str_app_assoc.
  - destruct (expect "~" s) as [s1|] eqn:H1; [|done].
    destruct (expect ":" s1) as [s2|] eqn:H2; [|done].
    destruct (scan_float s2) as [[n r]|] eqn:Hn; [|done].
    intros Hg. apply match_end_sound in Hg as [Ht _].
    apply scan_float_sound in Hn as [Hwn ->].
    apply expect_sound in H2 as ->. apply expect_sound in H1 as ->.
    by exists (AboveOnly n), r.
  - intros Hg. apply match_first_second_sound in Hg
      as (n & m & tail & Hn & Hm & Ht & ->).
    exists (Outside n m), tail. simpl. by rewrite !str_app_assoc.
  - destruct (expect "@" s) as [s1|] eqn:H1; [|done].
    intros Hg. apply match_first_second_sound in Hg
      as (n & m & tail & Hn & Hm & Ht & ->).
    apply expect_sound in H1 as ->.
    exists (Inside n m), tail. simpl. by rewrite !str_app_assoc.
Qed.

Lemma spec_text_nonempty (r : range_spec) (tail : string) :
  wf_spec r -> not_nagstring (Some (spec_text r +:+ tail)) = false.
Proof.
  intros Hr.
  assert (exists c x, spec_text r +:+ tail = String c x) as (c & x & ->); [|done].
  destruct r as [n | n | n | n m | n m]; simpl in *;
    try (by eexists _, _);
    [ destruct (text_of_head n Hr) as (c & x & -> & _)
    | destruct (text_of_head n Hr) as (c & x & -> & _)
    | destruct (text_of_head n (proj1 Hr)) as (c & x & -> & _) ];
    by eexists _, _.
Qed.

Lemma first_match_none (acts : list pattern) (s : string) (v : value) :
  Forall (fun p => re_match p s = None) acts ->
  first_match acts s v = Raise ImproperFormat.
Proof. induction 1 as [|p acts Hp _ IH]; simpl; [done|]. by rewrite Hp. Qed.

Lemma eval_alerts (r : range_spec) (v : Qc) :
  eval r (VNum v) = true <-> alerts r v.
Proof.
  destruct r as [n | n | n | n m | n m]; simpl;
    rewrite ?negb_true_iff, ?orb_true_iff, ?orb_false_iff,
      ?bool_decide_eq_true, ?bool_decide_eq_false; try done.
  split.
  - intros [H1 H2]. split; by apply Qcnot_lt_le.
  - intros [H1 H2]. split; by apply Qcle_not_lt.
Qed.

Ltac literal_heads :=
  repeat match goal with
         | |- context [String ?c ?s +:+ ?t] =>
             change (String c s +:+ t) with (String c (s +:+ t))
         | |- context [EmptyString +:+ ?t] => change (EmptyString +:+ t) with t
         end.

Ltac scan_step :=
  first
    [ rewrite scan_float_app by (done || by apply eol_stops)
    | rewrite scan_float_not_number by done
    | rewrite expect_text by done
    | rewrite at_dollar_text by done
    | rewrite at_dollar_cons by done
    | progress simpl ].

(** On the text of a well-formed specification, followed by at most a final
    newline, the pattern of its kind matches and no other does. *)
Lemma re_match_spec_text (r : range_spec) (tail : string) (p : pattern) :
  wf_spec r -> eol tail ->
  re_match p (spec_text r +:+ tail)
  = if decide (p = pattern_of r) then Some (groups_of r) else None.
Proof.
  intros Hr Ht. pose proof (proj2 (at_dollar_eol tail) Ht) as Hd.
  destruct r as [n | n | n | n m | n m]; simpl in Hr; try destruct Hr as [Hn Hm];
    destruct p; simpl spec_text; simpl pattern_of; simpl groups_of;
    (destruct (decide _) as [Heq | Hne]; [try discriminate Heq | try done]);
    clear Heq || clear Hne;
    rewrite ?str_app_assoc; literal_heads;
    unfold re_match, match_first_second, match_end;
    repeat scan_step; rewrite ?Hd; try reflexivity.
  all: by destruct Ht as [-> | ->].
Qed.

(** There, the loop returns what the lambda of that kind computes. *)
Lemma first_match_spec_text (r : range_spec) (tail : string) (v : value) :
  wf_spec r -> eol tail ->
  first_match actions (spec_text r +:+ tail) v = Ok (eval r v).
Proof.
  intros Hr Ht. unfold actions, first_match.
  rewrite !(re_match_spec_text r tail) by done.
  destruct r as [n | n | n | n m | n m]; simpl in *; try destruct Hr as [Hn Hm];
    rewrite ?py_float_text by done; try done;
    by destruct (py_lt v (float_value n)).
Qed.

Lemma is_within_range_spec_text (r : range_spec) (tail : string) (v : value) :
  wf_spec r -> eol tail ->
  is_within_range (Some (spec_text r +:+ tail)) v = Ok (eval r v).
Proof.
  intros Hr Ht. unfold is_within_range.
  rewrite spec_text_nonempty by done. by apply first_match_spec_text.
Qed.

(** ** Range specifications *)

Lemma first_match_wins (before after : list pattern) (p : pattern)
    (s : string) (v : value) (y : groups) :
  Forall (fun q => re_match q s = None) before ->
  re_match p s = Some y ->
  first_match (before ++ p :: after)%list s v = action p v y.
Proof.
  intros Hb Hp. induction Hb as [|q before Hq _ IH]; simpl.
  - by rewrite Hp.
  - by rewrite Hq.
Qed.

(** C6: for a number [v] and the text of any of the five forms, the range
    check returns exactly the alert condition of the table ([N]: [v > N] or
    [v < 0]; [N:]: [v < N]; [~:N]: [v > N]; [N:M]: [v < N] or [v > M];
    [@N:M]: [N <= v <= M]); the pattern of that form is the one that matches,
    and the patterns are tried in the order of [actions], the first match
    deciding. *)
Theorem is_within_range_table (r : range_spec) (v : Qc) :
  wf_spec r ->
  (exists b, is_within_range (Some (spec_text r)) (VNum v) = Ok b /\
             (b = true <-> alerts r v)) /\
  (forall p, re_match p (spec_text r)
             = if decide (p = pattern_of r) then Some (groups_of r) else None) /\
  actions = [PFirst; PFirstColon; PTildeFirst; PFirstSecond; PAtFirstSecond] /\
  (forall before p after t y w,
     actions = (before ++ p :: after)%list ->
     Forall (fun q => re_match q t = None) before ->
     re_match p t = Some y ->
     is_within_range (Some t) w = action p w y).
Proof.
  intros Hr. repeat split.
  - exists (eval r (VNum v)). split; [|apply eval_alerts].
    rewrite <- (str_app_nil_r (spec_text r)).
    apply is_within_range_spec_text; [done | by left].
  - intros p. rewrite <- (str_app_nil_r (spec_text r)).
    apply re_match_spec_text; [done | by left].
  - intros before p after t y w Hacts Hb Hp. unfold is_within_range.
    destruct t as [|c t]; [by destruct p|].
    simpl not_nagstring. cbv iota. simpl default.
    rewrite Hacts. by apply first_match_wins.
Qed.

Lemma is_within_range_table_witness :
  exists b, is_within_range (Some "@10:20") (VNum (qz 15)) = Ok b /\
            (b = true <-> alerts (Inside ten twenty) (qz 15)).
Proof.
  apply (is_within_range_table (Inside ten twenty) (qz 15)).
  repeat split; done.
Defined.

(** C7, as the script has it: the range check raises its format error
    on a number exactly when the text is non-empty and is not, up to one
    final newline, the text of one of the five forms; it raises nothing else
    there; and without a text, or with the empty one, it returns false for
    every value. *)
Theorem is_within_range_malformed (t : string) (q : Qc) (v : value) :
  (is_within_range (Some t) (VNum q) = Raise ImproperFormat <->
   t <> "" /\
   ~ exists r tail, wf_spec r /\ eol tail /\ t = spec_text r +:+ tail) /\
  (forall e, is_within_range (Some t) (VNum q) = Raise e -> e = ImproperFormat) /\
  is_within_range None v = Ok false /\
  is_within_range (Some "") v = Ok false /\
  is_within_range (Some "abc") v = Raise ImproperFormat /\
  is_within_range (Some "5:3:") v = Raise ImproperFormat.
Proof.
  assert (Hcases :
    (exists r tail, wf_spec r /\ eol tail /\ t = spec_text r +:+ tail) \/
    Forall (fun p => re_match p t = None) actions).
  { unfold actions.
    destruct (re_match PFirst t) eqn:H1;
      [left; apply re_match_sound in H1 as (r & tl & ? & _ & ? & ?); eauto|].
    destruct (re_match PFirstColon t) eqn:H2;
      [left; apply re_match_sound in H2 as (r & tl & ? & _ & ? & ?); eauto|].
    destruct (re_match PTildeFirst t) eqn:H3;
      [left; apply re_match_sound in H3 as (r & tl & ? & _ & ? & ?); eauto|].
    destruct (re_match PFirstSecond t) eqn:H4;
      [left; apply re_match_sound in H4 as (r & tl & ? & _ & ? & ?); eauto|].
    destruct (re_match PAtFirstSecond t) eqn:H5;
      [left; apply re_match_sound in H5 as (r & tl & ? & _ & ? & ?); eauto|].
    right. by repeat constructor. }
  split; [split|split; [|by repeat split]].
  - intros H. split; [by destruct t|].
    intros (r & tl & Hr & Htl & ->).
    rewrite is_within_range_spec_text in H by done. discriminate H.
  - intros [Hne Hnot]. destruct Hcases as [Hacc | Hnone]; [done|].
    unfold is_within_range. destruct t as [|c t]; [done|].
    simpl not_nagstring. cbv iota. by apply first_match_none.
  - intros e He. destruct Hcases as [(r & tl & Hr & Htl & ->) | Hnone].
    + rewrite is_within_range_spec_text in He by done. discriminate He.
    + unfold is_within_range in He. destruct t as [|c t]; [done|].
      simpl not_nagstring in He. cbv iota in He.
      rewrite (first_match_none _ _ _ Hnone) in He. by injection He.
Qed.

(** C7 as stated fails: a threshold text that ends in a newline is not
    empty and is of none of the five forms, and yet no error is raised. *)
Lemma trailing_newline_is_accepted :
  "5" +:+ newline <> "" /\
  (~ exists r, wf_spec r /\ "5" +:+ newline = spec_text r) /\
  is_within_range (Some ("5" +:+ newline)) (VNum (qz 7)) = Ok true.
Proof.
  split; [done|]. split; [|reflexivity].
  intros (r & Hr & Hrt).
  pose proof (re_match_spec_text r "" PFirst Hr (or_introl eq_refl)) as Hm.
  rewrite str_app_nil_r, <- Hrt in Hm.
  change (re_match PFirst ("5" +:+ newline)) with (Some (Groups "5" "")) in Hm.
  destruct (decide (PFirst = pattern_of r)) as [Hp | Hp]; [|done].
  destruct r; try discriminate Hp. simpl in *.
  injection Hm as Hn. rewrite <- Hn in Hrt. discriminate Hrt.
Qed.

(** ** The evaluator *)

Lemma py_mod_plain_bounded (n : nat) (t arg : string) (used : bool) :
  (String.length t <= n)%nat -> plain_template t = true ->
  (exists s, py_mod_from t arg used = Ok s) \/
  py_mod_from t arg used = Raise TypeError.
Proof.
  revert t used. induction n as [|n IH]; intros t used Hlen Hplain.
  - destruct t; [|simpl in Hlen; lia]. simpl. destruct used; eauto.
  - destruct t as [|c t]; [simpl; destruct used; eauto|].
    simpl in Hlen, Hplain.
    destruct (decide (c = "%"%char)) as [-> | Hc].
    + rewrite bool_decide_eq_true_2 in Hplain by done.
      destruct t as [|d t]; [done|]. simpl in Hlen.
      apply andb_prop in Hplain as [Hd Hplain].
      change (py_mod_from (String "%" (String d t)) arg used) with
        (if bool_decide (d = "%"%char) then
           obind (py_mod_from t arg used) (fun r => Ok (String "%" r))
         else if bool_decide (d = "s"%char) then
           if used then Raise TypeError
           else obind (py_mod_from t arg true) (fun r => Ok (arg +:+ r))
         else if numeric_conversion d then Raise TypeError
         else Raise ValueError).
      case_bool_decide.
      * destruct (IH t used ltac:(lia) Hplain) as [[s ->] | ->]; simpl; eauto.
      * simpl in Hd. rewrite Hd. destruct used; [by right|].
        destruct (IH t true ltac:(lia) Hplain) as [[s ->] | ->]; simpl; eauto.
    + rewrite bool_decide_eq_false_2 in Hplain by done.
      assert (Hstep : py_mod_from (String c t) arg used
                      = obind (py_mod_from t arg used) (fun r => Ok (String c r))).
      { destruct c as [[] [] [] [] [] [] [] []]; try reflexivity. done. }
      rewrite Hstep.
      destruct (IH t used ltac:(lia) Hplain) as [[s ->] | ->]; simpl; eauto.
Qed.

Lemma py_mod_plain (t arg : string) :
  plain_template t = true ->
  (exists s, py_mod t arg = Ok s) \/ py_mod t arg = Raise TypeError.
Proof. intros H. by apply (py_mod_plain_bounded (String.length t)). Qed.

Lemma prefix_app (a b : string) : String.prefix a (a +:+ b) = true.
Proof.
  induction a as [|c a IH]; [by destruct b|].
  rewrite str_app_cons. simpl. by destruct (ascii_dec c c).
Qed.

(** With a plain template, whatever the two range checks return decides the
    report. *)
Lemma return_nagios_severity (float_str : Qc -> string) (o : options)
    (tpl : string) (res : value) (unit_ label : string) (c w : bool) :
  plain_template tpl = true ->
  is_within_range (critical o) res = Ok c ->
  (c = false -> is_within_range (warning o) res = Ok w) ->
  exists text,
    return_nagios float_str o tpl res unit_ label
    = NagiosReturn (fst (severity c w) +:+ text) (snd (severity c w)).
Proof.
  intros Hplain Hc Hw. unfold return_nagios. rewrite Hc. simpl.
  assert (Hfmt : exists s,
    match py_mod tpl (py_str float_str res) with
    | Ok s => Ok s
    | Raise TypeError => Ok tpl
    | Raise e => Raise e
    end = Ok s).
  { destruct (py_mod_plain tpl (py_str float_str res) Hplain) as [[s ->] | ->]; eauto. }
  destruct Hfmt as [s Hs].
  destruct c; simpl.
  - rewrite Hs. simpl. eexists. unfold severity. simpl. reflexivity.
  - rewrite (Hw eq_refl). simpl. destruct w; simpl; rewrite Hs; simpl;
      eexists; unfold severity; simpl; reflexivity.
Qed.

(** C5: for a number and any two thresholds, each absent or of one of the
    five forms, the report is CRITICAL with exit code 2 when the critical
    threshold alerts, whatever the warning threshold says; otherwise WARNING
    with exit code 1 when the warning threshold alerts; otherwise OK with
    exit code 0.  The critical threshold is looked at first: when it alerts,
    the warning text is not even parsed. *)
Theorem return_nagios_precedence (float_str : Qc -> string) (h : string)
    (md : option string) (warn crit : option range_spec) (tpl : string)
    (v : Qc) (unit_ label : string) :
  wf_threshold warn -> wf_threshold crit -> plain_template tpl = true ->
  exists message code,
    return_nagios float_str
      (Options h (threshold_text warn) (threshold_text crit) md)
      tpl (VNum v) unit_ label
    = NagiosReturn message code /\
    exit_status (Raise (NagiosReturn message code)) = code /\
    (threshold_alerts crit v ->
     code = 2%Z /\ String.prefix "CRITICAL: " message = true) /\
    (~ threshold_alerts crit v -> threshold_alerts warn v ->
     code = 1%Z /\ String.prefix "WARNING: " message = true) /\
    (~ threshold_alerts crit v -> ~ threshold_alerts warn v ->
     code = 0%Z /\ String.prefix "OK: " message = true) /\
    (threshold_alerts crit v ->
     forall any_text, exists message',
       return_nagios float_str (Options h any_text (threshold_text crit) md)
         tpl (VNum v) unit_ label
       = NagiosReturn message' 2%Z).
Proof.
  intros Hwarn Hcrit Hplain.
  assert (Hcheck : forall t, wf_threshold t ->
    exists b, is_within_range (threshold_text t) (VNum v) = Ok b /\
              (b = true <-> threshold_alerts t v)).
  { intros [r|] Hr; simpl.
    - exists (eval r (VNum v)). split; [|apply eval_alerts].
      rewrite <- (str_app_nil_r (spec_text r)).
      apply is_within_range_spec_text; [done | by left].
    - exists false. by split. }
  destruct (Hcheck crit Hcrit) as (c & Hc & Hca).
  destruct (Hcheck warn Hwarn) as (w & Hw & Hwa).
  destruct (return_nagios_severity float_str
              (Options h (threshold_text warn) (threshold_text crit) md)
              tpl (VNum v) unit_ label c w Hplain Hc (fun _ => Hw))
    as [text Htext].
  eexists _, _. split; [exact Htext|]. split; [reflexivity|].
  unfold severity. split; [|split; [|split]]; cycle 3.
  { intros Ha any_text. apply Hca in Ha. subst c.
    destruct (return_nagios_severity float_str
                (Options h any_text (threshold_text crit) md)
                tpl (VNum v) unit_ label true false Hplain Hc
                (fun H => False_ind _ (diff_true_false H)))
      as [text' Htext'].
    by exists ("CRITICAL: " +:+ text'). }
  - intros Ha. apply Hca in Ha. subst c. split; [done | apply prefix_app].
  - intros Hn Ha. apply Hwa in Ha. subst w.
    destruct c; [destruct Hn; by apply Hca|]. split; [done | apply prefix_app].
  - intros Hnc Hnw.
    destruct c; [destruct Hnc; by apply Hca|].
    destruct w; [destruct Hnw; by apply Hwa|]. split; [done | apply prefix_app].
Qed.

Lemma return_nagios_precedence_witness :
  exists message,
    return_nagios ratio_str (Options "db" (Some "10") (Some "5") None)
      "Number of open connections is %s" (VNum (qz 20)) "" "connections"
    = NagiosReturn message 2%Z /\
    String.prefix "CRITICAL: " message = true.
Proof.
  destruct (return_nagios_precedence ratio_str "db" None
              (Some (AtMost ten)) (Some (AtMost five))
              "Number of open connections is %s" (qz 20) "" "connections")
    as (message & code & Hret & _ & Hcrit & _).
  - repeat split; done.
  - repeat split; done.
  - reflexivity.
  - exists message. destruct Hcrit as [-> Hp]; [by left|]. by split.
Defined.

(** C2 as stated fails: with a critical threshold configured, an absent
    result is compared like any other value, and the report is not OK.
    ([None] is below every number, so the threshold ["5"] alerts on it and the
    report is CRITICAL.) *)
Lemma absent_result_is_compared :
  is_within_range (Some "5") VNone = Ok true /\
  exit_status
    (Raise (return_nagios ratio_str (Options "db" None (Some "5") None)
              "Transactions per second is %s" VNone "" "transactions"))
  <> 0%Z.
Proof. split; [reflexivity | discriminate]. Qed.

(** C2, as the script has it: when neither threshold is configured (absent or
    empty text), an absent result is reported as OK with exit code 0, and
    the range check answers false before looking at the value. *)
Theorem return_nagios_absent (float_str : Qc -> string) (o : options)
    (tpl unit_ label : string) :
  not_nagstring (critical o) = true ->
  not_nagstring (warning o) = true ->
  plain_template tpl = true ->
  (exists message,
     return_nagios float_str o tpl VNone unit_ label = NagiosReturn message 0 /\
     String.prefix "OK: " message = true) /\
  (forall v, is_within_range (critical o) v = Ok false /\
             is_within_range (warning o) v = Ok false).
Proof.
  intros Hc Hw Hplain.
  assert (Hnone : forall v, is_within_range (critical o) v = Ok false /\
                            is_within_range (warning o) v = Ok false).
  { intros v. unfold is_within_range. by rewrite Hc, Hw. }
  split; [|done].
  destruct (return_nagios_severity float_str o tpl VNone unit_ label false false
              Hplain (proj1 (Hnone VNone)) (fun _ => proj2 (Hnone VNone)))
    as [text ->].
  eexists. split; [reflexivity | apply prefix_app].
Qed.

Lemma return_nagios_absent_witness :
  exists message,
    return_nagios ratio_str (Options "db" None (Some "") None)
      "Transactions per second is %s" VNone "" "transactions"
    = NagiosReturn message 0.
Proof.
  destruct (return_nagios_absent ratio_str (Options "db" None (Some "") None)
              "Transactions per second is %s" "" "transactions"
              eq_refl eq_refl eq_refl) as [(message & H & _) _].
  by exists message.
Defined.

(** ** The check runner *)

(** [do_] never returns: it leaves by an exception, [NagiosReturn] or
    another. *)
Lemma do_never_returns (float_str : Qc -> string) (hash : string -> Z)
    (tmpdir : string) (self : query_object) (conn : connection) (w : world) :
  exists e w', do_ float_str hash tmpdir self conn w = (Raise e, w').
Proof.
  unfold do_, bind.
  destruct (run_on_connection self conn w) as [[self1 | e] w1]; [|eauto].
  destruct (calculate_result hash tmpdir self1 w1) as [[self2 | e] w2]; [|eauto].
  unfold finish. destruct (result self2); unfold raise; eauto.
Qed.

(** C1 fails on the script.  For a mode whose type is [delta] or [divide],
    [execute_query] builds the object and returns: nothing is sent to the
    server, no state is read or written, nothing is raised, and the process
    ends with status 0 and no report; whereas running the object would have
    left by an exception. *)
Theorem execute_query_only_constructs (float_str : Qc -> string)
    (hash : string -> Z) (tmpdir : string) (modes : gmap string mode_entry)
    (mssql : connection) (o : options) (h : string) (w : world)
    (name : string) (e : mode_entry) :
  mode o = Some name ->
  modes !! name = Some e ->
  m_type e = Some "delta" \/ m_type e = Some "divide" ->
  execute_query float_str hash tmpdir modes mssql o h w = (Ok tt, w) /\
  exit_status (fst (execute_query float_str hash tmpdir modes mssql o h w)) = 0%Z /\
  forall c, fst (do_ float_str hash tmpdir (new c e o h) mssql w) <> Ok tt.
Proof.
  intros Hmode Hentry Htype.
  assert (Hrun : execute_query float_str hash tmpdir modes mssql o h w = (Ok tt, w)).
  { unfold execute_query. rewrite Hmode. simpl. rewrite Hentry.
    destruct Htype as [-> | ->]; reflexivity. }
  split; [done|]. split; [by rewrite Hrun|].
  intros c. destruct (do_never_returns float_str hash tmpdir (new c e o h) mssql w)
    as (e' & w' & ->). done.
Qed.

Lemma execute_query_only_constructs_witness :
  execute_query ratio_str length_hash "/tmp" more_modes (one_row 75)
    (Options "db" (Some "50") (Some "100") (Some "transactions")) "db"
    fresh_world
  = (Ok tt, fresh_world).
Proof.
  eapply (execute_query_only_constructs ratio_str length_hash "/tmp" more_modes
            (one_row 75) _ "db" fresh_world "transactions").
  - reflexivity.
  - reflexivity.
  - by left.
Defined.

(** A mode of any other type is run, and reported. *)
Lemma execute_query_connections :
  fst (execute_query ratio_str length_hash "/tmp" MODES (one_row 75)
         (Options "db" (Some "50") (Some "100") (Some "connections")) "db"
         fresh_world)
  = Raise (NagiosReturn
             "WARNING: Number of open connections is 75/1|connections=75/1;50;100;;"
             1).
Proof. reflexivity. Qed.

(** ** The rate strategy and its persisted state *)

Lemma getitem_no_last_run_time : getitem no_last_run "time" = Ok VNone.
Proof. reflexivity. Qed.

Lemma getitem_lookup (d : gmap string value) (k : string) (v : value) :
  d !! k = Some v -> getitem d k = Ok v.
Proof. unfold getitem. by intros ->. Qed.

Lemma Qc_sub_ne_zero (a b : Qc) : a <> b -> bool_decide ((a - b)%Qc = qz 0) = false.
Proof.
  intros Hne. apply bool_decide_eq_false. intros H. apply Hne.
  change (qz 0) with 0%Qc in H.
  transitivity ((a - b) + b)%Qc; [ring | rewrite H; ring].
Qed.

(** No state file yet: the result is absent and the sample is stored. *)
Lemma delta_no_file (hash : string -> Z) (tmpdir : string)
    (self : query_object) (w : world) (v : value) :
  query_result self = Some (Scalar v) ->
  files w !! make_pickle_name hash tmpdir self = None ->
  creatable w = true ->
  calculate_result_delta hash tmpdir self w
  = (Ok (set_result VNone self),
     after_call (make_pickle_name hash tmpdir self)
       (File true true (Pickled (new_run (time_src w (reads w)) v))) 1 w).
Proof.
  intros Hq Hfile Hcreate.
  unfold calculate_result_delta, bind, open_read, open_write, lift, time_time,
    ret, set_files, after_call.
  rewrite Hfile, Hq. simpl. rewrite Hfile, Hcreate. simpl.
  rewrite lookup_insert_eq. simpl.
  rewrite getitem_no_last_run_time. simpl.
  rewrite lookup_insert_eq. simpl.
  by rewrite insert_insert_eq.
Qed.

(** A state file on which unpickling runs out of input: the same. *)
Lemma delta_eof (hash : string -> Z) (tmpdir : string)
    (self : query_object) (w : world) (v : value) (f : file) :
  query_result self = Some (Scalar v) ->
  files w !! make_pickle_name hash tmpdir self = Some f ->
  readable f = true -> writable f = true ->
  pickle_load (data f) = Raise EOFError ->
  calculate_result_delta hash tmpdir self w
  = (Ok (set_result VNone self),
     after_call (make_pickle_name hash tmpdir self)
       (File true true (Pickled (new_run (time_src w (reads w)) v))) 1 w).
Proof.
  intros Hq Hfile Hr Hw Hload.
  unfold calculate_result_delta, bind, open_read, open_write, lift, time_time,
    ret, set_files, after_call.
  rewrite Hfile, Hr, Hq. simpl. rewrite Hload. simpl.
  rewrite getitem_no_last_run_time. simpl.
  by rewrite Hfile, Hw, Hr.
Qed.

(** A state file with a sample: the rate over the time elapsed, and the new
    sample in place of the old. *)
Lemma delta_sample (hash : string -> Z) (tmpdir : string)
    (self : query_object) (w : world) (x : Qc) (f : file)
    (d : gmap string value) (t0 x0 : Qc) :
  query_result self = Some (Scalar (VNum x)) ->
  files w !! make_pickle_name hash tmpdir self = Some f ->
  readable f = true -> writable f = true ->
  data f = Pickled d ->
  d !! "time" = Some (VNum t0) ->
  d !! "query_result" = Some (VNum x0) ->
  t0 <> qz 0 ->
  time_src w (reads w) <> t0 ->
  calculate_result_delta hash tmpdir self w
  = (Ok (set_result
           (VNum ((x - x0) / (time_src w (reads w) - t0) * modifier self)%Qc)
           self),
     after_call (make_pickle_name hash tmpdir self)
       (File true true (Pickled (new_run (time_src w (S (reads w))) (VNum x))))
       2 w).
Proof.
  intros Hq Hfile Hr Hw Hdata Htime Hval Ht0 Hdt.
  unfold calculate_result_delta, bind, open_read, open_write, lift, time_time,
    ret, set_files, after_call.
  rewrite Hfile, Hr, Hq, Hdata. simpl.
  rewrite (getitem_lookup _ _ _ Htime), (getitem_lookup _ _ _ Hval). simpl.
  rewrite (bool_decide_eq_false_2 _ Ht0). simpl.
  rewrite (Qc_sub_ne_zero _ _ Hdt). simpl.
  by rewrite Hfile, Hw, Hr.
Qed.

(** A stored record whose time is [None] or zero counts as no sample. *)
Lemma delta_falsy_time (hash : string -> Z) (tmpdir : string)
    (self : query_object) (w : world) (v : value) (f : file)
    (d : gmap string value) (t : value) :
  query_result self = Some (Scalar v) ->
  files w !! make_pickle_name hash tmpdir self = Some f ->
  readable f = true -> writable f = true ->
  data f = Pickled d ->
  d !! "time" = Some t -> truthy t = false ->
  calculate_result_delta hash tmpdir self w
  = (Ok (set_result VNone self),
     after_call (make_pickle_name hash tmpdir self)
       (File true true (Pickled (new_run (time_src w (reads w)) v))) 1 w).
Proof.
  intros Hq Hfile Hr Hw Hdata Htime Hfalsy.
  unfold calculate_result_delta, bind, open_read, open_write, lift, time_time,
    ret, set_files, after_call.
  rewrite Hfile, Hr, Hq, Hdata. simpl.
  rewrite (getitem_lookup _ _ _ Htime). simpl. rewrite Hfalsy. simpl.
  by rewrite Hfile, Hw, Hr.
Qed.

Lemma lookup_after_call (name : string) (f : file) (n : nat) (w : world) :
  files (after_call name f n w) !! name = Some f.
Proof. apply lookup_insert_eq. Qed.

(** C3: a rate computation with no stored sample gives an absent result and
    stores the current time and value; with a stored sample it gives
    [((new_value - old_value) / (new_time - old_time)) * modifier]; either
    way the state file is rewritten with the current time and value alone.
    An empty state file, and a stored time that is [None] or zero, count as
    no stored sample.  (With a stored sample the clock is read twice, at
    lines 154 and 161; the rate uses the first reading and the file gets the
    second.) *)
Theorem delta_calculate_result (hash : string -> Z) (tmpdir : string)
    (self : query_object) (w : world) (x : Qc) :
  query_result self = Some (Scalar (VNum x)) ->
  let name := make_pickle_name hash tmpdir self in
  let now1 := time_src w (reads w) in
  let now2 := time_src w (S (reads w)) in
  (files w !! name = None -> creatable w = true ->
   calculate_result_delta hash tmpdir self w
   = (Ok (set_result VNone self),
      after_call name (File true true (Pickled (new_run now1 (VNum x)))) 1 w)) /\
  (forall f,
     files w !! name = Some f -> readable f = true -> writable f = true ->
     data f = Blank ->
     calculate_result_delta hash tmpdir self w
     = (Ok (set_result VNone self),
        after_call name (File true true (Pickled (new_run now1 (VNum x)))) 1 w)) /\
  (forall f d t,
     files w !! name = Some f -> readable f = true -> writable f = true ->
     data f = Pickled d -> d !! "time" = Some t -> truthy t = false ->
     calculate_result_delta hash tmpdir self w
     = (Ok (set_result VNone self),
        after_call name (File true true (Pickled (new_run now1 (VNum x)))) 1 w)) /\
  (forall f d t0 x0,
     files w !! name = Some f -> readable f = true -> writable f = true ->
     data f = Pickled d ->
     d !! "time" = Some (VNum t0) -> d !! "query_result" = Some (VNum x0) ->
     t0 <> qz 0 -> now1 <> t0 ->
     calculate_result_delta hash tmpdir self w
     = (Ok (set_result (VNum ((x - x0) / (now1 - t0) * modifier self)%Qc) self),
        after_call name (File true true (Pickled (new_run now2 (VNum x)))) 2 w)) /\
  (forall f n, files (after_call name f n w) !! name = Some f) /\
  (forall t v, new_run t v !! "time" = Some (VNum t) /\
               new_run t v !! "query_result" = Some v /\
               dom (new_run t v) = {[ "time"; "query_result" ]}).
Proof.
  intros Hq name now1 now2. split; [|split; [|split; [|split; [|split]]]].
  - intros Hfile Hcreate. by apply delta_no_file.
  - intros f Hfile Hr Hw Hdata. apply (delta_eof hash tmpdir self w _ f); try done.
    by rewrite Hdata.
  - intros f d t Hfile Hr Hw Hdata Htime Hfalsy.
    by apply (delta_falsy_time hash tmpdir self w _ f d t).
  - intros f d t0 x0 Hfile Hr Hw Hdata Htime Hval Ht0 Hdt.
    by apply (delta_sample hash tmpdir self w x f d t0 x0).
  - intros f n. apply lookup_after_call.
  - intros t v. split; [|split].
    + apply lookup_insert_eq.
    + unfold new_run. rewrite lookup_insert_ne by done. apply lookup_insert_eq.
    + unfold new_run. rewrite !dom_insert_L. set_solver.
Qed.

Lemma delta_calculate_result_witness :
  calculate_result_delta length_hash "/tmp" (rate_on "db" "q" 10) fresh_world
  = (Ok (set_result VNone (rate_on "db" "q" 10)),
     world_after_first_call) /\
  result_of (calculate_result_delta length_hash "/tmp" (rate_on "db" "q" 60)
               world_after_first_call)
  = Ok (Some (VNum (qz 5))).
Proof.
  destruct (delta_calculate_result length_hash "/tmp" (rate_on "db" "q" 10)
              fresh_world (qz 10) eq_refl) as (Hfirst & _).
  destruct (delta_calculate_result length_hash "/tmp" (rate_on "db" "q" 60)
              world_after_first_call (qz 60) eq_refl) as (_ & _ & _ & Hsecond & _).
  split.
  - apply Hfirst; reflexivity.
  - unfold result_of.
    rewrite (Hsecond _ (new_run (qz 100) (VNum (qz 10))) (qz 100) (qz 10)
               (lookup_after_call _ _ _ _) eq_refl eq_refl eq_refl
               eq_refl eq_refl ltac:(discriminate) ltac:(discriminate)).
    cbn [fst result set_result]. do 3 f_equal.
Defined.

Lemma delta_open_fails (hash : string -> Z) (tmpdir : string)
    (self : query_object) (w : world) :
  match files w !! make_pickle_name hash tmpdir self with
  | Some f => readable f = false
  | None => creatable w = false
  end ->
  result_of (calculate_result_delta hash tmpdir self w) = Raise IOError.
Proof.
  intros H.
  unfold result_of, calculate_result_delta, bind, open_read, open_write, lift,
    set_files, ret.
  destruct (files w !! make_pickle_name hash tmpdir self) as [f|] eqn:Hfile.
  - rewrite H. simpl. rewrite Hfile.
    destruct (writable f); simpl; [|done].
    by rewrite lookup_insert_eq; simpl; rewrite H.
  - simpl. by rewrite Hfile, H.
Qed.

Lemma delta_save_fails (hash : string -> Z) (tmpdir : string)
    (self : query_object) (w : world) (v : value) (f : file) :
  query_result self = Some (Scalar v) ->
  files w !! make_pickle_name hash tmpdir self = Some f ->
  readable f = true -> writable f = false ->
  pickle_load (data f) = Raise EOFError ->
  result_of (calculate_result_delta hash tmpdir self w) = Raise IOError.
Proof.
  intros Hq Hfile Hr Hw Hload.
  unfold result_of, calculate_result_delta, bind, open_read, open_write, lift,
    time_time, ret, set_files.
  rewrite Hfile, Hr, Hq. simpl. rewrite Hload. simpl.
  rewrite getitem_no_last_run_time. simpl.
  by rewrite Hfile, Hw.
Qed.

Lemma delta_load_raises (hash : string -> Z) (tmpdir : string)
    (self : query_object) (w : world) (f : file) (e : exn) :
  files w !! make_pickle_name hash tmpdir self = Some f ->
  readable f = true ->
  pickle_load (data f) = Raise e -> e <> EOFError ->
  result_of (calculate_result_delta hash tmpdir self w) = Raise e.
Proof.
  intros Hfile Hr Hload He.
  unfold result_of, calculate_result_delta, bind, open_read, lift.
  rewrite Hfile, Hr. simpl. rewrite Hload. by destruct e.
Qed.

Lemma delta_no_value (hash : string -> Z) (tmpdir : string)
    (self : query_object) (w : world) (f : file) (d : gmap string value)
    (t0 : Qc) :
  files w !! make_pickle_name hash tmpdir self = Some f ->
  readable f = true -> data f = Pickled d ->
  d !! "time" = Some (VNum t0) -> t0 <> qz 0 ->
  d !! "query_result" = None ->
  result_of (calculate_result_delta hash tmpdir self w) = Raise KeyError.
Proof.
  intros Hfile Hr Hdata Htime Ht0 Hval.
  unfold result_of, calculate_result_delta, bind, open_read, lift, time_time.
  rewrite Hfile, Hr, Hdata. simpl.
  rewrite (getitem_lookup _ _ _ Htime). simpl.
  rewrite (bool_decide_eq_false_2 _ Ht0). simpl.
  unfold getitem. by rewrite Hval.
Qed.

Lemma delta_save_fails_record (hash : string -> Z) (tmpdir : string)
    (self : query_object) (w : world) (v : value) (f : file)
    (d : gmap string value) (t : value) :
  query_result self = Some (Scalar v) ->
  files w !! make_pickle_name hash tmpdir self = Some f ->
  readable f = true -> writable f = false ->
  data f = Pickled d ->
  d !! "time" = Some t -> truthy t = false ->
  result_of (calculate_result_delta hash tmpdir self w) = Raise IOError.
Proof.
  intros Hq Hfile Hr Hw Hdata Htime Hfalsy.
  unfold result_of, calculate_result_delta, bind, open_read, open_write, lift,
    time_time, ret, set_files.
  rewrite Hfile, Hr, Hq, Hdata. simpl.
  rewrite (getitem_lookup _ _ _ Htime). simpl. rewrite Hfalsy. simpl.
  by rewrite Hfile, Hw.
Qed.

Lemma falsy_time (t : value) : t = VNone \/ t = VNum (qz 0) -> truthy t = false.
Proof.
  intros [-> | ->]; [done|]. unfold truthy. by rewrite bool_decide_true.
Qed.

Lemma delta_no_time (hash : string -> Z) (tmpdir : string)
    (self : query_object) (w : world) (f : file) (d : gmap string value) :
  files w !! make_pickle_name hash tmpdir self = Some f ->
  readable f = true -> data f = Pickled d ->
  d !! "time" = None ->
  result_of (calculate_result_delta hash tmpdir self w) = Raise KeyError.
Proof.
  intros Hfile Hr Hdata Htime.
  unfold result_of, calculate_result_delta, bind, open_read, lift.
  rewrite Hfile, Hr, Hdata. simpl.
  unfold getitem. by rewrite Htime.
Qed.

(** C8, as the script has it.  The rate computation takes the run for a first
    one, and its result is absent, in three cases: there is no state file;
    unpickling the file runs out of input (an empty file); the stored record
    has a time that is [None] or zero, whatever else it holds.  A stored
    record without a time, or with a time that is not zero and without a
    value, is a fault (KeyError), and so is a file on which unpickling raises
    an UnpicklingError.  A state file that cannot be opened for reading or
    created, or that cannot be rewritten once the run has been taken for a
    first one, is a fault too (IOError).  Each of these faults ends the
    process with status 3. *)
Theorem delta_first_run (hash : string -> Z) (tmpdir : string)
    (self : query_object) (w : world) (v : value) :
  query_result self = Some (Scalar v) ->
  let name := make_pickle_name hash tmpdir self in
  let outcome_ := result_of (calculate_result_delta hash tmpdir self w) in
  (files w !! name = None -> creatable w = true ->
   outcome_ = Ok (Some VNone)) /\
  (forall f, files w !! name = Some f ->
     readable f = true -> writable f = true ->
     data f = Blank \/ data f = Damaged EOFError ->
     outcome_ = Ok (Some VNone)) /\
  (forall f d t, files w !! name = Some f ->
     readable f = true -> writable f = true ->
     data f = Pickled d ->
     d !! "time" = Some t -> t = VNone \/ t = VNum (qz 0) ->
     outcome_ = Ok (Some VNone)) /\
  (forall f d, files w !! name = Some f ->
     readable f = true -> data f = Pickled d ->
     d !! "time" = None ->
     outcome_ = Raise KeyError) /\
  (forall f d t0, files w !! name = Some f ->
     readable f = true -> data f = Pickled d ->
     d !! "time" = Some (VNum t0) -> t0 <> qz 0 ->
     d !! "query_result" = None ->
     outcome_ = Raise KeyError) /\
  (forall f, files w !! name = Some f ->
     readable f = true -> data f = Damaged UnpicklingError ->
     outcome_ = Raise UnpicklingError) /\
  (files w !! name = None -> creatable w = false ->
   outcome_ = Raise IOError) /\
  (forall f, files w !! name = Some f -> readable f = false ->
     outcome_ = Raise IOError) /\
  (forall f, files w !! name = Some f ->
     readable f = true -> writable f = false ->
     data f = Blank \/ data f = Damaged EOFError ->
     outcome_ = Raise IOError) /\
  (forall f d t, files w !! name = Some f ->
     readable f = true -> writable f = false ->
     data f = Pickled d ->
     d !! "time" = Some t -> t = VNone \/ t = VNum (qz 0) ->
     outcome_ = Raise IOError) /\
  exit_status (Raise IOError) = 3%Z /\
  exit_status (Raise KeyError) = 3%Z /\
  exit_status (Raise UnpicklingError) = 3%Z.
Proof.
  intros Hq. cbv zeta.
  split; [|split; [|split; [|split; [|split; [|split; [|split; [|split;
    [|split; [|split; [|split; [|split]]]]]]]]]]].
  - intros Hfile Hc. unfold result_of. by rewrite (delta_no_file _ _ _ _ v).
  - intros f Hfile Hr Hw Hdata. unfold result_of.
    rewrite (delta_eof _ _ _ _ v f); try done.
    by destruct Hdata as [-> | ->].
  - intros f d t Hfile Hr Hw Hdata Htime Ht%falsy_time.
    unfold result_of. by rewrite (delta_falsy_time _ _ _ _ v f d t).
  - intros f d Hfile Hr Hdata Htime.
    by apply (delta_no_time _ _ _ _ f d).
  - intros f d t0 Hfile Hr Hdata Htime Ht0 Hval.
    by apply (delta_no_value _ _ _ _ f d t0).
  - intros f Hfile Hr Hdata. apply (delta_load_raises _ _ _ _ f); try done.
    by rewrite Hdata.
  - intros Hfile Hc. apply delta_open_fails. by rewrite Hfile.
  - intros f Hfile Hr. apply delta_open_fails. by rewrite Hfile.
  - intros f Hfile Hr Hw Hdata. apply (delta_save_fails _ _ _ _ v f); try done.
    by destruct Hdata as [-> | ->].
  - intros f d t Hfile Hr Hw Hdata Htime Ht%falsy_time.
    by apply (delta_save_fails_record _ _ _ _ v f d t).
  - reflexivity.
  - reflexivity.
  - reflexivity.
Qed.

Lemma delta_first_run_witness :
  result_of (calculate_result_delta length_hash "/tmp" (rate_on "db" "q" 10)
               fresh_world) = Ok (Some VNone) /\
  result_of (calculate_result_delta length_hash "/tmp" (rate_on "db" "q" 10)
               (world_with (rate_on "db" "q" 10) Blank)) = Ok (Some VNone) /\
  result_of (calculate_result_delta length_hash "/tmp" (rate_on "db" "q" 10)
               (world_with (rate_on "db" "q" 10)
                  (Pickled {[ "time" := VNone ]}))) = Ok (Some VNone).
Proof.
  split; [|split].
  - apply (proj1 (delta_first_run length_hash "/tmp" (rate_on "db" "q" 10)
                    fresh_world (VNum (qz 10)) eq_refl)); reflexivity.
  - apply (proj1 (proj2 (delta_first_run length_hash "/tmp"
                           (rate_on "db" "q" 10)
                           (world_with (rate_on "db" "q" 10) Blank)
                           (VNum (qz 10)) eq_refl))
             (File true true Blank)).
    + apply lookup_singleton_eq.
    + reflexivity.
    + reflexivity.
    + by left.
  - apply (proj1 (proj2 (proj2 (delta_first_run length_hash "/tmp"
                           (rate_on "db" "q" 10)
                           (world_with (rate_on "db" "q" 10)
                              (Pickled {[ "time" := VNone ]}))
                           (VNum (qz 10)) eq_refl)))
             (File true true (Pickled {[ "time" := VNone ]}))
             {[ "time" := VNone ]} VNone).
    + apply lookup_singleton_eq.
    + reflexivity.
    + reflexivity.
    + reflexivity.
    + apply lookup_singleton_eq.
    + by left.
Defined.

(** C8 as stated fails: a state file holding a partial record (a time and no
    value), or bytes on which unpickling raises an UnpicklingError, is not
    taken for a first run; the exception leaves the computation, and the
    process with status 3. *)
Lemma partial_record_is_a_fault :
  result_of (calculate_result_delta length_hash "/tmp" (rate_on "db" "q" 60)
               (world_with (rate_on "db" "q" 60)
                  (Pickled {[ "time" := VNum (qz 100) ]})))
  = Raise KeyError /\
  result_of (calculate_result_delta length_hash "/tmp" (rate_on "db" "q" 60)
               (world_with (rate_on "db" "q" 60) (Damaged UnpicklingError)))
  = Raise UnpicklingError.
Proof. split; reflexivity. Qed.

(** C10: the name of the state file depends on the host and the query only
    through their concatenation, so the checks of ("ab", "c") and of
    ("a", "bc") use one file: run after the first, the second finds the
    first one's sample, computes its rate from it, and overwrites it. *)
Theorem pickle_name_collision (hash : string -> Z) (tmpdir : string) :
  ("ab", "c") <> ("a", "bc") /\
  make_pickle_name hash tmpdir (rate_on "ab" "c" 10)
  = make_pickle_name hash tmpdir (rate_on "a" "bc" 60) /\
  (forall h q x, make_pickle_name hash tmpdir (rate_on h q x)
                 = tmpdir +:+ "/mssql-" +:+ pretty (hash (h +:+ q)) +:+ ".tmp") /\
  exists w1 w2,
    calculate_result_delta hash tmpdir (rate_on "ab" "c" 10) fresh_world
    = (Ok (set_result VNone (rate_on "ab" "c" 10)), w1) /\
    calculate_result_delta hash tmpdir (rate_on "a" "bc" 60) w1
    = (Ok (set_result (VNum (qz 5)) (rate_on "a" "bc" 60)), w2) /\
    files w2 = {[ make_pickle_name hash tmpdir (rate_on "ab" "c" 10)
                  := File true true (Pickled (new_run (qz 120) (VNum (qz 60)))) ]}.
Proof.
  split; [done|]. split; [reflexivity|]. split; [reflexivity|].
  set (name := make_pickle_name hash tmpdir (rate_on "ab" "c" 10)).
  set (w1 := after_call name
               (File true true (Pickled (new_run (qz 100) (VNum (qz 10))))) 1
               fresh_world).
  exists w1, (after_call name
                (File true true (Pickled (new_run (qz 120) (VNum (qz 60))))) 2 w1).
  split; [|split].
  - by apply (delta_no_file hash tmpdir (rate_on "ab" "c" 10) fresh_world
                (VNum (qz 10))).
  - assert (Hrate : ((qz 60 - qz 10) / (time_src w1 (reads w1) - qz 100)
                     * modifier (rate_on "a" "bc" 60))%Qc = qz 5)
      by by apply Qc_is_canon.
    rewrite <- Hrate.
    apply (delta_sample hash tmpdir (rate_on "a" "bc" 60) w1 (qz 60)
             (File true true (Pickled (new_run (qz 100) (VNum (qz 10)))))
             (new_run (qz 100) (VNum (qz 10))) (qz 100) (qz 10));
      try reflexivity; try discriminate.
    apply lookup_after_call.
  - simpl. by rewrite !insert_insert_eq.
Qed.

(** ** The ratio and direct strategies *)

Lemma round_half_away_near (n : Z) (d : positive) :
  let k := round_half_away (n # d) in
  (2 * Zpos d * k - Zpos d <= 200 * n <= 2 * Zpos d * k + Zpos d)%Z.
Proof.
  unfold round_half_away. simpl.
  destruct (0 <=? n)%Z eqn:Hsign.
  - pose proof (Z.div_mod (n * 200 + Zpos d) (2 * Zpos d) ltac:(lia)) as Hdm.
    pose proof (Z.mod_pos_bound (n * 200 + Zpos d) (2 * Zpos d) ltac:(lia)) as Hb.
    lia.
  - pose proof (Z.div_mod (- (n * 200) + Zpos d) (2 * Zpos d) ltac:(lia)) as Hdm.
    pose proof (Z.mod_pos_bound (- (n * 200) + Zpos d) (2 * Zpos d) ltac:(lia)) as Hb.
    lia.
Qed.

Lemma round2_two_decimals (x : Qc) : two_decimals (round2 x).
Proof. by exists (round_half_away x). Qed.

(** [round2] moves a number by at most half a hundredth. *)
Lemma round2_near (x : Qc) :
  (x - Q2Qc (1 # 200) <= round2 x)%Qc /\ (round2 x <= x + Q2Qc (1 # 200))%Qc.
Proof.
  destruct x as [[n d] Hcanon].
  pose proof (round_half_away_near n d) as Hk. simpl in Hk.
  unfold round2, Qcle, Qcminus, Qcplus, Qcopp. simpl.
  rewrite !Qred_correct.
  set (k := round_half_away (n # d)) in *.
  unfold Qle, Qplus, Qopp. simpl. lia.
Qed.

(** C4, as the script has it: over the column [a; b; ...], the ratio is
    [(a / b) * modifier] rounded to two decimal places when [b] is not zero,
    and [a * modifier], not rounded, when it is; rounding gives a multiple of
    1/100 at most 1/200 away. *)
Theorem divide_calculate_result (self : query_object) (w : world)
    (a b : Qc) (rest : list value) :
  query_result self = Some (Column (VNum a :: VNum b :: rest)) ->
  (b <> qz 0 ->
   calculate_result_divide self w
   = (Ok (set_result (VNum (round2 (a / b * modifier self)%Qc)) self), w)) /\
  (b = qz 0 ->
   calculate_result_divide self w
   = (Ok (set_result (VNum (a * modifier self)%Qc) self), w)) /\
  (forall x, two_decimals (round2 x) /\
             (x - Q2Qc (1 # 200) <= round2 x)%Qc /\
             (round2 x <= x + Q2Qc (1 # 200))%Qc).
Proof.
  intros Hq. split; [|split].
  - intros Hb. unfold calculate_result_divide, bind, lift, ret.
    rewrite Hq. simpl. by rewrite (bool_decide_eq_false_2 _ Hb).
  - intros ->. unfold calculate_result_divide, bind, lift, ret.
    by rewrite Hq.
  - intros x. split; [apply round2_two_decimals | apply round2_near].
Qed.

Lemma divide_calculate_result_witness :
  result_of (calculate_result_divide (ratio_on [VNum (qz 10); VNum (qz 4)])
               fresh_world)
  = Ok (Some (VNum (Q2Qc (5 # 2)))) /\
  result_of (calculate_result_divide (ratio_on [VNum (qz 10); VNum (qz 0)])
               fresh_world)
  = Ok (Some (VNum (qz 10))).
Proof.
  split; unfold result_of.
  - rewrite (proj1 (divide_calculate_result
                      (ratio_on [VNum (qz 10); VNum (qz 4)]) fresh_world
                      (qz 10) (qz 4) [] eq_refl)) by discriminate.
    cbn [fst result set_result]. do 3 f_equal; by apply Qc_is_canon.
  - rewrite (proj1 (proj2 (divide_calculate_result
                      (ratio_on [VNum (qz 10); VNum (qz 0)]) fresh_world
                      (qz 10) (qz 0) [] eq_refl))) by reflexivity.
    cbn [fst result set_result]. do 3 f_equal; by apply Qc_is_canon.
Defined.

(** C4 as stated fails: with a zero divisor the result is not rounded. *)
Lemma zero_divisor_is_not_rounded :
  result_of (calculate_result_divide
               (ratio_on [VNum (Q2Qc (1 # 8)); VNum (qz 0)]) fresh_world)
  = Ok (Some (VNum (Q2Qc (1 # 8)))) /\
  ~ two_decimals (Q2Qc (1 # 8)).
Proof.
  split.
  - unfold result_of, calculate_result_divide, bind, lift, ret. simpl.
    do 3 f_equal; by apply Qc_is_canon.
  - intros [z Hz]. apply (f_equal this) in Hz. simpl in Hz.
    apply Qred_eq_iff in Hz. unfold Qeq in Hz. simpl in Hz. lia.
Qed.

(** C9: the direct and ratio computations leave the world as it is, and
    their result is a function of the class, the raw input and the modifier
    alone: the same raw input gives the same result in any world, and
    computing again on the object just computed changes nothing. *)
Theorem calculate_result_pure (hash : string -> Z) (tmpdir : string)
    (self self' : query_object) (w w' : world) :
  cls self <> MSSQLDeltaQuery ->
  cls self' = cls self ->
  query_result self' = query_result self ->
  modifier self' = modifier self ->
  snd (calculate_result hash tmpdir self w) = w /\
  result_of (calculate_result hash tmpdir self' w')
  = result_of (calculate_result hash tmpdir self w) /\
  (forall self1,
     fst (calculate_result hash tmpdir self w) = Ok self1 ->
     calculate_result hash tmpdir self1 w' = (Ok self1, w')).
Proof.
  intros Hcls Hc Hq Hm.
  unfold result_of, calculate_result, calculate_result_query,
    calculate_result_divide, bind, lift, ret, raise.
  rewrite Hc, Hq, Hm.
  destruct self as [c q o l u s h m qr r]; simpl in *.
  destruct c; [| |done].
  - destruct qr as [[v|col]|]; simpl; try done.
    destruct v as [|x]; simpl; [done|]. split; [done|]. split; [done|].
    by intros self1 [= <-].
  - destruct qr as [[v|col]|]; simpl; try done.
    destruct (col !! 1%nat) as [b|] eqn:Hb; simpl; [|done].
    destruct (py_ne_zero b) eqn:Hnz; simpl;
      (destruct (col !! 0%nat) as [[|a]|] eqn:Ha; simpl; [done| |done]).
    + destruct (py_div a b) as [quot|e] eqn:Hdiv; simpl; [|done].
      split; [done|]. split; [done|].
      intros self1 [= <-]. simpl. rewrite Hb, Ha. simpl.
      by rewrite Hnz, Hdiv.
    + split; [done|]. split; [done|].
      intros self1 [= <-]. simpl. rewrite Hb, Ha. simpl. by rewrite Hnz.
Qed.

Lemma calculate_result_pure_witness :
  result_of (calculate_result length_hash "/tmp"
               (ratio_on [VNum (qz 10); VNum (qz 4)]) world_after_first_call)
  = result_of (calculate_result length_hash "/tmp"
                 (ratio_on [VNum (qz 10); VNum (qz 4)]) fresh_world) /\
  result_of (calculate_result length_hash "/tmp" (direct_on 75)
               world_after_first_call)
  = result_of (calculate_result length_hash "/tmp" (direct_on 75) fresh_world).
Proof.
  split.
  - apply (calculate_result_pure length_hash "/tmp"
             (ratio_on [VNum (qz 10); VNum (qz 4)])
             (ratio_on [VNum (qz 10); VNum (qz 4)]));
      [discriminate | reflexivity | reflexivity | reflexivity].
  - apply (calculate_result_pure length_hash "/tmp" (direct_on 75) (direct_on 75));
      [discriminate | reflexivity | reflexivity | reflexivity].
Defined.

(** * Further properties of the script *)

(** ** The command line *)

Lemma chosen_cons (d : string) (b : bool) (flags : list (string * bool)) :
  chosen ((d, b) :: flags) = if b then d :: chosen flags else chosen flags.
Proof.
  unfold chosen. destruct b.
  - by rewrite filter_cons_True.
  - by rewrite filter_cons_False.
Qed.

Lemma select_mode_taken (flags : list (string * bool)) (d0 : string) :
  d0 <> "" ->
  select_mode flags (Some d0)
  = match chosen flags with
    | [] => Accept (Some d0)
    | _ :: _ => ParserError "Must choose one and only Mode Option."
    end.
Proof.
  intros Hd0. induction flags as [|[d b] flags IH]; [done|].
  rewrite chosen_cons. destruct b; simpl.
  - by destruct d0.
  - apply IH.
Qed.

Lemma select_mode_free (flags : list (string * bool)) :
  Forall (fun d => d <> "") (chosen flags) ->
  select_mode flags None
  = match chosen flags with
    | [] => Accept None
    | [d] => Accept (Some d)
    | _ :: _ :: _ => ParserError "Must choose one and only Mode Option."
    end.
Proof.
  induction flags as [|[d b] flags IH]; [done|].
  rewrite chosen_cons. destruct b; simpl.
  - intros Hne. apply Forall_cons in Hne as [Hd Hne].
    rewrite (select_mode_taken flags d Hd). by destruct (chosen flags).
  - apply IH.
Qed.

(** X1: the loop over the mode options accepts no flag (no mode), or
    exactly one flag (that mode); two or more are a parser error. *)
Theorem select_mode_one_and_only (flags : list (string * bool)) :
  Forall (fun d => d <> "") (chosen flags) ->
  (chosen flags = [] -> select_mode flags None = Accept None) /\
  (forall d, chosen flags = [d] -> select_mode flags None = Accept (Some d)) /\
  (2 <= length (chosen flags) ->
   select_mode flags None
   = ParserError "Must choose one and only Mode Option.") /\
  (forall d, select_mode flags None = Accept (Some d) ->
     (d, true) ∈ flags).
Proof.
  intros Hne. rewrite (select_mode_free flags Hne).
  split; [|split; [|split]].
  - by intros ->.
  - by intros d ->.
  - destruct (chosen flags) as [|d [|d' l]]; simpl; [lia | lia | done].
  - intros d. destruct (chosen flags) as [|d' [|d'' l]] eqn:Hch; try done.
    intros [= ->].
    assert (Hin : d ∈ chosen flags) by (rewrite Hch; apply list_elem_of_here).
    unfold chosen in Hin. apply list_elem_of_fmap in Hin as ([d1 b] & -> & Hin).
    apply list_elem_of_filter in Hin as [Hb Hin]. simpl in Hb. by subst b.
Qed.

Lemma select_mode_one_and_only_witness :
  select_mode [("connections", false); ("cpu", true)] None = Accept (Some "cpu") /\
  select_mode [("connections", true); ("cpu", true)] None
  = ParserError "Must choose one and only Mode Option.".
Proof.
  split.
  - apply (select_mode_one_and_only [("connections", false); ("cpu", true)]).
    + by repeat constructor.
    + reflexivity.
  - apply (select_mode_one_and_only [("connections", true); ("cpu", true)]).
    + by repeat constructor.
    + simpl. lia.
Defined.

Lemma falsy_given (x : option string) : falsy x = false <-> given x.
Proof.
  unfold given. destruct x as [[|c s]|]; simpl; split; try done.
  - by intros (s & [= <-] & H).
  - intros _. by eexists.
  - by intros (s & H & _).
Qed.

(** X2: [parse_args] accepts exactly when host name, user and password are
    given and not empty, instance and port are not both given, and at most one
    mode is chosen; what it returns carries the host name, the thresholds as
    typed and the mode chosen, if any. *)
Theorem parse_args_accepts (a : arguments) :
  Forall (fun d => d <> "") (chosen (arg_flags a)) ->
  ((exists p, parse_args a = Accept p) <->
   given (arg_hostname a) /\ given (arg_user a) /\ given (arg_password a) /\
   ~ (given (arg_instance a) /\ given (arg_port a)) /\
   length (chosen (arg_flags a)) <= 1) /\
  (forall p, parse_args a = Accept p ->
     arg_hostname a = Some (hostname (p_options p)) /\
     warning (p_options p) = arg_warning a /\
     critical (p_options p) = arg_critical a /\
     mode (p_options p) = head (chosen (arg_flags a))).
Proof.
  intros Hne. unfold parse_args. rewrite (select_mode_free _ Hne).
  rewrite <- !falsy_given.
  destruct (falsy (arg_hostname a)) eqn:Hh.
  { split; [split|]; [by intros [p Hp] | by intros (H & _) | done]. }
  destruct (falsy (arg_user a)) eqn:Hu.
  { split; [split|]; [by intros [p Hp] | by intros (_ & H & _) | done]. }
  destruct (falsy (arg_password a)) eqn:Hp.
  { split; [split|]; [by intros [p Hp'] | by intros (_ & _ & H & _) | done]. }
  destruct (falsy (arg_instance a)) eqn:Hi, (falsy (arg_port a)) eqn:Hpo; simpl.
  4: { split; [split|]; [by intros [p Hp'] | | done].
       intros (_ & _ & _ & H & _). by destruct H. }
  all: destruct (chosen (arg_flags a)) as [|d [|d' l]] eqn:Hch; simpl.
  all: (split; [split|]);
    [ intros [p Hp'];
      first [ discriminate Hp'
            | split; [done|]; split; [done|]; split; [done|];
              split; [|simpl; lia]; by intros [? ?] ]
    | intros (_ & _ & _ & _ & Hlen); try (simpl in Hlen; lia); by eexists
    | try done ].
  all: intros p [= <-]; simpl; repeat split; try done.
  all: apply falsy_given in Hh as (s & -> & _); done.
Qed.

Lemma parse_args_accepts_witness :
  (exists p, parse_args (sample_arguments [("connections", true); ("cpu", false)])
             = Accept p) /\
  ~ (exists p, parse_args (sample_arguments [("connections", true); ("cpu", true)])
               = Accept p).
Proof.
  split.
  - apply (parse_args_accepts
             (sample_arguments [("connections", true); ("cpu", false)])).
    + by repeat constructor.
    + repeat split; try (by eexists); [by intros [[? [? ?]] _] | simpl; lia].
  - intros H.
    apply (parse_args_accepts
             (sample_arguments [("connections", true); ("cpu", true)])) in H.
    + destruct H as (_ & _ & _ & _ & H). simpl in H. lia.
    + by repeat constructor.
Defined.

(** ** More on range specifications *)

Lemma is_within_range_spec (r : range_spec) (v : value) :
  wf_spec r -> is_within_range (Some (spec_text r)) v = Ok (eval r v).
Proof.
  intros Hr. rewrite <- (str_app_nil_r (spec_text r)).
  apply is_within_range_spec_text; [done | by left].
Qed.

(** X3: on a number, [@N:M] alerts exactly when [N:M] does not. *)
Theorem inside_is_not_outside (n m : float_text) (v : Qc) :
  wf_float n -> wf_float m ->
  exists b,
    is_within_range (Some (text_of n +:+ ":" +:+ text_of m)) (VNum v) = Ok b /\
    is_within_range (Some ("@" +:+ text_of n +:+ ":" +:+ text_of m)) (VNum v)
    = Ok (negb b).
Proof.
  intros Hn Hm. exists (eval (Outside n m) (VNum v)). split.
  - by apply (is_within_range_spec (Outside n m)).
  - by apply (is_within_range_spec (Inside n m)).
Qed.

Lemma inside_is_not_outside_witness :
  exists b,
    is_within_range (Some "10:20") (VNum (qz 15)) = Ok b /\
    is_within_range (Some "@10:20") (VNum (qz 15)) = Ok (negb b).
Proof.
  apply (inside_is_not_outside ten twenty (qz 15)); repeat split; done.
Defined.

(** X4: the short form [N] is the range from zero: on a number it gives the
    verdict of [Z:N] for any literal [Z] of value zero. *)
Theorem at_most_is_from_zero (z n : float_text) (v : Qc) :
  wf_float z -> wf_float n -> float_value z = qz 0 ->
  exists b,
    is_within_range (Some (text_of n)) (VNum v) = Ok b /\
    is_within_range (Some (text_of z +:+ ":" +:+ text_of n)) (VNum v) = Ok b.
Proof.
  intros Hz Hn Hzero. exists (eval (AtMost n) (VNum v)). split.
  - by apply (is_within_range_spec (AtMost n)).
  - change (text_of z +:+ ":" +:+ text_of n) with (spec_text (Outside z n)).
    rewrite is_within_range_spec by done.
    simpl. rewrite Hzero. f_equal. apply orb_comm.
Qed.

Lemma at_most_is_from_zero_witness :
  exists b,
    is_within_range (Some "10") (VNum (qz 15)) = Ok b /\
    is_within_range (Some "0.0:10") (VNum (qz 15)) = Ok b.
Proof.
  apply (at_most_is_from_zero (FloatText false "0" "0") ten (qz 15)).
  - repeat split; done.
  - repeat split; done.
  - by apply Qc_is_canon.
Defined.

(** X5: with the bounds the wrong way round ([M < N]), [N:M] alerts on every
    number and [@N:M] on none. *)
Theorem inverted_bounds (n m : float_text) (v : Qc) :
  wf_float n -> wf_float m -> (float_value m < float_value n)%Qc ->
  is_within_range (Some (text_of n +:+ ":" +:+ text_of m)) (VNum v) = Ok true /\
  is_within_range (Some ("@" +:+ text_of n +:+ ":" +:+ text_of m)) (VNum v)
  = Ok false.
Proof.
  intros Hn Hm Hlt.
  assert (Hall : eval (Outside n m) (VNum v) = true).
  { simpl. apply orb_true_iff. rewrite !bool_decide_eq_true.
    destruct (Qclt_le_dec v (float_value n)) as [Hv | Hv]; [by left|].
    right. by apply Qclt_le_trans with (float_value n). }
  split.
  - change (text_of n +:+ ":" +:+ text_of m) with (spec_text (Outside n m)).
    rewrite is_within_range_spec by done. by rewrite Hall.
  - change ("@" +:+ text_of n +:+ ":" +:+ text_of m)
      with (spec_text (Inside n m)).
    rewrite is_within_range_spec by done.
    f_equal. change (eval (Inside n m) (VNum v))
      with (negb (eval (Outside n m) (VNum v))). by rewrite Hall.
Qed.

Lemma inverted_bounds_witness :
  is_within_range (Some "20:10") (VNum (qz 15)) = Ok true /\
  is_within_range (Some "@20:10") (VNum (qz 15)) = Ok false.
Proof.
  apply (inverted_bounds twenty ten (qz 15)); [repeat split; done.. | done].
Defined.

(** ** More on the report *)

Lemma py_mod_from_step (c : ascii) (r arg : string) (used : bool) :
  c <> "%"%char ->
  py_mod_from (String c r) arg used
  = obind (py_mod_from r arg used) (fun t => Ok (String c t)).
Proof.
  intros Hc. destruct c as [[] [] [] [] [] [] [] []]; try reflexivity. done.
Qed.

Lemma py_mod_from_plain_prefix (a rest arg : string) (used : bool) :
  no_percent a = true ->
  py_mod_from (a +:+ rest) arg used
  = obind (py_mod_from rest arg used) (fun t => Ok (a +:+ t)).
Proof.
  intros Ha. induction a as [|c a IH]; simpl in Ha.
  - rewrite str_app_nil_l. by destruct (py_mod_from rest arg used).
  - apply andb_prop in Ha as [Hc Ha]. apply negb_true_iff in Hc.
    apply bool_decide_eq_false in Hc.
    rewrite str_app_cons, py_mod_from_step by done.
    rewrite (IH Ha). by destruct (py_mod_from rest arg used).
Qed.

Lemma py_mod_from_slot (rest arg : string) :
  py_mod_from ("%s" +:+ rest) arg false
  = obind (py_mod_from rest arg true) (fun t => Ok (arg +:+ t)).
Proof. reflexivity. Qed.

Lemma py_mod_from_second_slot (rest arg : string) :
  py_mod_from ("%s" +:+ rest) arg true = Raise TypeError.
Proof. reflexivity. Qed.

Lemma py_mod_from_stray (arg : string) (used : bool) :
  py_mod_from "%" arg used = Raise ValueError.
Proof. reflexivity. Qed.

Lemma py_mod_from_plain_used (b arg : string) :
  no_percent b = true -> py_mod_from b arg true = Ok b.
Proof.
  intros Hb. rewrite <- (str_app_nil_r b) at 1.
  rewrite py_mod_from_plain_prefix by done. simpl. by rewrite str_app_nil_r.
Qed.

(** What [%] makes of the templates a mode can have. *)
Lemma py_mod_templates (a b c arg : string) :
  no_percent a = true -> no_percent b = true -> no_percent c = true ->
  py_mod a arg = Raise TypeError /\
  py_mod (a +:+ "%s" +:+ b) arg = Ok (a +:+ arg +:+ b) /\
  py_mod (a +:+ "%s" +:+ b +:+ "%s" +:+ c) arg = Raise TypeError /\
  py_mod (a +:+ "%") arg = Raise ValueError /\
  py_mod (a +:+ "%s" +:+ b +:+ "%") arg = Raise ValueError.
Proof.
  intros Ha Hb Hc. unfold py_mod. repeat split.
  - rewrite <- (str_app_nil_r a). by rewrite py_mod_from_plain_prefix.
  - rewrite py_mod_from_plain_prefix, py_mod_from_slot by done.
    by rewrite py_mod_from_plain_used.
  - rewrite py_mod_from_plain_prefix, py_mod_from_slot by done.
    rewrite py_mod_from_plain_prefix by done.
    by rewrite py_mod_from_second_slot.
  - by rewrite py_mod_from_plain_prefix, py_mod_from_stray.
  - rewrite py_mod_from_plain_prefix, py_mod_from_slot by done.
    by rewrite py_mod_from_plain_prefix, py_mod_from_stray.
Qed.

(** The report for a template, given what the range checks and [%] return. *)
Lemma return_nagios_report (float_str : Qc -> string) (o : options)
    (tpl : string) (res : value) (unit_ label text : string) (c w : bool) :
  is_within_range (critical o) res = Ok c ->
  (c = false -> is_within_range (warning o) res = Ok w) ->
  (py_mod tpl (py_str float_str res) = Ok text \/
   py_mod tpl (py_str float_str res) = Raise TypeError /\ text = tpl) ->
  return_nagios float_str o tpl res unit_ label
  = NagiosReturn
      (report_line (fst (severity c w)) text label (py_str float_str res) unit_ o)
      (snd (severity c w)).
Proof.
  intros Hc Hw Hfmt. unfold return_nagios, report_line. rewrite Hc. simpl.
  assert (Hs : match py_mod tpl (py_str float_str res) with
               | Ok s => Ok s
               | Raise TypeError => Ok tpl
               | Raise e => Raise e
               end = Ok text).
  { by destruct Hfmt as [-> | [-> ->]]. }
  destruct c; simpl.
  - by rewrite Hs.
  - rewrite (Hw eq_refl). simpl. destruct w; simpl; by rewrite Hs.
Qed.

(** X6: with a template that has one [%s] and no other percent sign, the
    report line is the severity prefix, the template with the value in place
    of [%s], and the performance data [label=value unit;warning;critical;;]. *)
Theorem return_nagios_one_slot (float_str : Qc -> string) (o : options)
    (a b : string) (res : value) (unit_ label : string) (c w : bool) :
  no_percent a = true -> no_percent b = true ->
  is_within_range (critical o) res = Ok c ->
  (c = false -> is_within_range (warning o) res = Ok w) ->
  return_nagios float_str o (a +:+ "%s" +:+ b) res unit_ label
  = NagiosReturn
      (fst (severity c w) +:+ (a +:+ py_str float_str res +:+ b) +:+ "|" +:+
       label +:+ "=" +:+ py_str float_str res +:+ unit_ +:+ ";" +:+
       default "" (warning o) +:+ ";" +:+ default "" (critical o) +:+ ";;")
      (snd (severity c w)).
Proof.
  intros Ha Hb Hc Hw.
  apply (return_nagios_report float_str o _ res unit_ label _ c w Hc Hw).
  left. by apply (py_mod_templates a b "").
Qed.

Lemma return_nagios_one_slot_witness :
  return_nagios ratio_str (Options "db" (Some "50") (Some "100") None)
    "Time to connect was %ss" (VNum (qz 75)) "s" "time"
  = NagiosReturn "WARNING: Time to connect was 75/1s|time=75/1s;50;100;;" 1.
Proof.
  apply (return_nagios_one_slot ratio_str
           (Options "db" (Some "50") (Some "100") None)
           "Time to connect was " "s" (VNum (qz 75)) "s" "time" false true);
    reflexivity.
Defined.

(** X7: a template without any percent sign, and one with two [%s], are
    reported as they stand: the TypeError of the formatting is swallowed, and
    the value shows in the performance data only. *)
Theorem return_nagios_verbatim (float_str : Qc -> string) (o : options)
    (a b c' tpl : string) (res : value) (unit_ label : string) (c w : bool) :
  no_percent a = true -> no_percent b = true -> no_percent c' = true ->
  tpl = a \/ tpl = a +:+ "%s" +:+ b +:+ "%s" +:+ c' ->
  is_within_range (critical o) res = Ok c ->
  (c = false -> is_within_range (warning o) res = Ok w) ->
  return_nagios float_str o tpl res unit_ label
  = NagiosReturn
      (fst (severity c w) +:+ tpl +:+ "|" +:+
       label +:+ "=" +:+ py_str float_str res +:+ unit_ +:+ ";" +:+
       default "" (warning o) +:+ ";" +:+ default "" (critical o) +:+ ";;")
      (snd (severity c w)).
Proof.
  intros Ha Hb Hc' Htpl Hc Hw.
  apply (return_nagios_report float_str o _ res unit_ label _ c w Hc Hw).
  right. split; [|done].
  destruct (py_mod_templates a b c' (py_str float_str res) Ha Hb Hc')
    as (H0 & _ & H2 & _).
  by destruct Htpl as [-> | ->].
Qed.

Lemma return_nagios_verbatim_witness :
  return_nagios ratio_str (Options "db" None None None)
    "All is well" (VNum (qz 75)) "" "load"
  = NagiosReturn "OK: All is well|load=75/1;;;;" 0.
Proof.
  apply (return_nagios_verbatim ratio_str (Options "db" None None None)
           "All is well" "" "" "All is well" (VNum (qz 75)) "" "load"
           false false); try reflexivity. by left.
Defined.

(** X8: a template with a percent sign left alone at its end makes the
    report itself fail: the ValueError of the formatting is not caught, no
    status line is produced, and the process ends with status 3. *)
Theorem return_nagios_stray_percent (float_str : Qc -> string) (o : options)
    (a b tpl : string) (res : value) (unit_ label : string) (c w : bool) :
  no_percent a = true -> no_percent b = true ->
  tpl = a +:+ "%" \/ tpl = a +:+ "%s" +:+ b +:+ "%" ->
  is_within_range (critical o) res = Ok c ->
  (c = false -> is_within_range (warning o) res = Ok w) ->
  return_nagios float_str o tpl res unit_ label = ValueError /\
  exit_status (Raise (return_nagios float_str o tpl res unit_ label)) = 3%Z.
Proof.
  intros Ha Hb Htpl Hc Hw.
  assert (Hfmt : py_mod tpl (py_str float_str res) = Raise ValueError).
  { destruct (py_mod_templates a b "" (py_str float_str res) Ha Hb eq_refl)
      as (_ & _ & _ & H3 & H4).
    by destruct Htpl as [-> | ->]. }
  assert (Hret : return_nagios float_str o tpl res unit_ label = ValueError).
  { unfold return_nagios. rewrite Hc. simpl. destruct c; simpl.
    - by rewrite Hfmt.
    - rewrite (Hw eq_refl). simpl. destruct w; simpl; by rewrite Hfmt. }
  by rewrite Hret.
Qed.

Lemma return_nagios_stray_percent_witness :
  return_nagios ratio_str (Options "db" None None None)
    "Current CPU utilization is %s%" (VNum (qz 75)) "%" "cpu"
  = ValueError.
Proof.
  apply (return_nagios_stray_percent ratio_str (Options "db" None None None)
           "Current CPU utilization is " "" "Current CPU utilization is %s%"
           (VNum (qz 75)) "%" "cpu" false false); try reflexivity. by right.
Defined.

Lemma is_within_range_malformed_text (t : option string) (v : value) :
  malformed t -> is_within_range t v = Raise ImproperFormat.
Proof.
  intros (s & -> & Hne & Hnone). unfold is_within_range.
  destruct s as [|ch s]; [done|]. simpl not_nagstring. cbv iota.
  by apply first_match_none.
Qed.

(** X9: a malformed threshold is a fault only where it is looked at.  A
    malformed critical text always ends the check with the format error
    (status 3), whatever the value, the warning text and the template; a
    malformed warning text does so when the critical threshold does not
    alert, and goes unnoticed when it does. *)
Theorem return_nagios_malformed_threshold (float_str : Qc -> string)
    (o : options) (tpl : string) (res : value) (unit_ label : string) :
  (malformed (critical o) ->
   return_nagios float_str o tpl res unit_ label = ImproperFormat) /\
  (malformed (warning o) ->
   is_within_range (critical o) res = Ok false ->
   return_nagios float_str o tpl res unit_ label = ImproperFormat) /\
  (malformed (warning o) ->
   is_within_range (critical o) res = Ok true ->
   plain_template tpl = true ->
   exists message,
     return_nagios float_str o tpl res unit_ label = NagiosReturn message 2) /\
  exit_status (Raise ImproperFormat) = 3%Z.
Proof.
  split; [|split; [|split]]; [| | |done].
  - intros Hbad. unfold return_nagios.
    by rewrite (is_within_range_malformed_text _ res Hbad).
  - intros Hbad Hc. unfold return_nagios. rewrite Hc. simpl.
    by rewrite (is_within_range_malformed_text _ res Hbad).
  - intros Hbad Hc Hplain.
    destruct (return_nagios_severity float_str o tpl res unit_ label true false
                Hplain Hc (fun H => False_ind _ (diff_true_false H)))
      as [text Htext].
    by eexists.
Qed.

Lemma return_nagios_malformed_threshold_witness :
  return_nagios ratio_str (Options "db" (Some "10") (Some "abc") None)
    "Value is %s" (VNum (qz 75)) "" "value"
  = ImproperFormat.
Proof.
  apply (proj1 (return_nagios_malformed_threshold ratio_str
                  (Options "db" (Some "10") (Some "abc") None)
                  "Value is %s" (VNum (qz 75)) "" "value")).
  exists "abc". split; [done|]. split; [done|]. by repeat constructor.
Defined.

(** ** Running a check *)

(** X10: running a direct check sends its query once and reports the first
    cell of the first row times the modifier, whatever else the rows hold;
    an empty result, a NULL cell and a fault of the server end it with that
    exception, the query having been sent; nothing else changes. *)
Theorem do_direct (float_str : Qc -> string) (hash : string -> Z)
    (tmpdir : string) (self : query_object) (conn : connection) (w : world) :
  cls self = MSSQLQuery ->
  (forall x cells rows,
     conn (query self) = Ok ((VNum x :: cells) :: rows) ->
     do_ float_str hash tmpdir self conn w
     = (Raise (return_nagios float_str (opts self) (stdout self)
                 (VNum (x * modifier self)%Qc) (unit_ self) (label self)),
        sent (query self) w)) /\
  (conn (query self) = Ok [] ->
   do_ float_str hash tmpdir self conn w = (Raise TypeError, sent (query self) w)) /\
  (forall cells rows,
     conn (query self) = Ok ((VNone :: cells) :: rows) ->
     do_ float_str hash tmpdir self conn w = (Raise TypeError, sent (query self) w)) /\
  (forall e,
     conn (query self) = Raise e ->
     do_ float_str hash tmpdir self conn w = (Raise e, sent (query self) w)).
Proof.
  intros Hcls.
  unfold do_, run_on_connection, calculate_result, calculate_result_query,
    finish, bind, cursor_execute, lift, ret, raise, sent.
  rewrite Hcls. repeat split.
  - intros x cells rows ->. simpl. by rewrite Hcls.
  - by intros ->.
  - intros cells rows ->. simpl. by rewrite Hcls.
  - by intros e ->.
Qed.

Lemma do_direct_witness :
  do_ ratio_str length_hash "/tmp"
    (new MSSQLQuery
       (ModeEntry "" (Some "Value is %s") (Some "value") None None
          (Some (qz 2)) "SELECT 1;")
       (Options "db" None None None) "db")
    (fun _ => Ok []) fresh_world
  = (Raise TypeError, sent "SELECT 1;" fresh_world).
Proof.
  apply (proj1 (proj2 (do_direct ratio_str length_hash "/tmp"
           (new MSSQLQuery
              (ModeEntry "" (Some "Value is %s") (Some "value") None None
                 (Some (qz 2)) "SELECT 1;")
              (Options "db" None None None) "db")
           (fun _ => Ok []) fresh_world eq_refl))).
  reflexivity.
Defined.

Lemma first_cells_heads (rows : list (list value)) (col : list value) :
  Forall2 (fun row c => head row = Some c) rows col ->
  first_cells rows = Ok col.
Proof.
  induction 1 as [|row c rows col Hrow _ IH]; [done|].
  destruct row as [|c' row]; [done|]. simpl in *.
  injection Hrow as ->. by rewrite IH.
Qed.

(** X11: [first_cells] gives the first cell of every row, in order, and
    fails (IndexError) exactly when some row is empty. *)
Theorem first_cells_spec (rows : list (list value)) :
  (forall col, first_cells rows = Ok col <->
               Forall2 (fun row c => head row = Some c) rows col) /\
  (first_cells rows = Raise IndexError <-> Exists (fun row => row = []) rows) /\
  (forall e, first_cells rows = Raise e -> e = IndexError).
Proof.
  induction rows as [|row rows (IHok & IHbad & IHe)].
  - split; [|split].
    + intros col. split.
      * intros [= <-]. constructor.
      * intros H. by inversion H.
    + split; [done | intros H; inversion H].
    + done.
  - destruct row as [|c row]; simpl.
    + split; [|split].
      * intros col. split; [done|]. intros H. by inversion H.
      * split; [intros _; by left | done].
      * by intros e [= <-].
    + destruct (first_cells rows) as [t|e] eqn:Hrec; simpl.
      * split; [|split]; [| |done].
        -- intros col. split.
           ++ intros [= <-]. constructor; [done|]. by apply IHok.
           ++ intros H. inversion H as [|? c0 ? col0 Hh Hrest]; subst.
              simpl in Hh. injection Hh as <-.
              apply IHok in Hrest. by injection Hrest as ->.
        -- split; [done|]. intros H. inversion H as [? ? Hh | ? ? Hrest]; subst.
           ++ done.
           ++ by apply IHbad in Hrest.
      * split; [|split].
        -- intros col. split; [done|].
           intros H. inversion H as [|? c0 ? col0 Hh Hrest]; subst.
           by apply IHok in Hrest.
        -- split.
           ++ intros [= ->]. right. by apply IHbad.
           ++ intros _. specialize (IHe e eq_refl). by subst e.
        -- intros e' [= <-]. by apply IHe.
Qed.

(** X12: running a ratio check sends its query once and reports the first
    cell of the first row over the first cell of the second, times the
    modifier and rounded to two decimals, or the first cell times the
    modifier when the second is zero; the other rows and cells do not count;
    with fewer than two rows it ends with an IndexError. *)
Theorem do_divide (float_str : Qc -> string) (hash : string -> Z)
    (tmpdir : string) (self : query_object) (conn : connection) (w : world)
    (rows : list (list value)) (col : list value) :
  cls self = MSSQLDivideQuery ->
  conn (query self) = Ok rows ->
  Forall2 (fun row c => head row = Some c) rows col ->
  (forall a b rest,
     col = VNum a :: VNum b :: rest -> b <> qz 0 ->
     do_ float_str hash tmpdir self conn w
     = (Raise (return_nagios float_str (opts self) (stdout self)
                 (VNum (round2 (a / b * modifier self)%Qc))
                 (unit_ self) (label self)),
        sent (query self) w)) /\
  (forall a rest,
     col = VNum a :: VNum (qz 0) :: rest ->
     do_ float_str hash tmpdir self conn w
     = (Raise (return_nagios float_str (opts self) (stdout self)
                 (VNum (a * modifier self)%Qc) (unit_ self) (label self)),
        sent (query self) w)) /\
  (length col < 2 ->
   do_ float_str hash tmpdir self conn w = (Raise IndexError, sent (query self) w)).
Proof.
  intros Hcls Hconn Hcol.
  unfold do_, run_on_connection, calculate_result, calculate_result_divide,
    finish, bind, cursor_execute, lift, ret, raise, sent.
  rewrite Hcls, Hconn, (first_cells_heads rows col Hcol). simpl.
  rewrite Hcls. simpl. split; [|split].
  - intros a b rest -> Hb. simpl.
    by rewrite (bool_decide_eq_false_2 _ Hb).
  - by intros a rest ->.
  - intros Hlen. destruct col as [|c1 [|c2 col]]; simpl in *; [done | done | lia].
Qed.

Lemma do_divide_witness :
  do_ ratio_str length_hash "/tmp" (ratio_on [])
    (fun _ => Ok [[VNum (qz 10); VNum (qz 7)]; [VNum (qz 4)]; [VNum (qz 9)]])
    fresh_world
  = (Raise (NagiosReturn "OK: Ratio is 5/2|ratio=5/2;;;;" 0),
     sent "q" fresh_world).
Proof.
  destruct (do_divide ratio_str length_hash "/tmp" (ratio_on [])
              (fun _ => Ok [[VNum (qz 10); VNum (qz 7)]; [VNum (qz 4)]; [VNum (qz 9)]])
              fresh_world
              [[VNum (qz 10); VNum (qz 7)]; [VNum (qz 4)]; [VNum (qz 9)]]
              [VNum (qz 10); VNum (qz 4); VNum (qz 9)] eq_refl eq_refl)
    as (Hrun & _).
  - by repeat constructor.
  - rewrite (Hrun (qz 10) (qz 4) [VNum (qz 9)] eq_refl) by discriminate.
    reflexivity.
Defined.

(** ** More on the rate strategy *)

(** X13: whatever happens in it, a rate computation touches no file but its
    own state file, sends no query, and reads the clock at most twice. *)
Theorem delta_frame (hash : string -> Z) (tmpdir : string)
    (self : query_object) (w : world) :
  let w' := snd (calculate_result_delta hash tmpdir self w) in
  (forall name, name <> make_pickle_name hash tmpdir self ->
                files w' !! name = files w !! name) /\
  executed w' = executed w /\
  creatable w' = creatable w /\
  time_src w' = time_src w /\
  reads w <= reads w' <= 2 + reads w.
Proof.
  cbv zeta.
  unfold calculate_result_delta, bind, open_read, open_write, lift, time_time,
    ret, raise, set_files.
  repeat (case_match; simplify_eq/=);
    (split; [intros name Hname; rewrite ?lookup_insert_ne by done; done|]);
    repeat split; simpl; first [lia | congruence].
Qed.

(** X14: when the clock reads exactly the stored time, the rate computation
    ends with a ZeroDivisionError and the stored sample stays as it was. *)
Theorem delta_same_time (hash : string -> Z) (tmpdir : string)
    (self : query_object) (w : world) (x : Qc) (f : file)
    (d : gmap string value) (t0 x0 : Qc) :
  query_result self = Some (Scalar (VNum x)) ->
  files w !! make_pickle_name hash tmpdir self = Some f ->
  readable f = true ->
  data f = Pickled d ->
  d !! "time" = Some (VNum t0) -> d !! "query_result" = Some (VNum x0) ->
  t0 <> qz 0 ->
  time_src w (reads w) = t0 ->
  calculate_result_delta hash tmpdir self w
  = (Raise ZeroDivisionError,
     World (files w) (creatable w) (time_src w) (S (reads w)) (executed w)).
Proof.
  intros Hq Hfile Hr Hdata Htime Hval Ht0 Hnow.
  unfold calculate_result_delta, bind, open_read, lift, time_time, ret.
  rewrite Hfile, Hr, Hq, Hdata. simpl.
  rewrite (getitem_lookup _ _ _ Htime), (getitem_lookup _ _ _ Hval). simpl.
  rewrite (bool_decide_eq_false_2 _ Ht0). simpl. rewrite Hnow.
  rewrite bool_decide_eq_true_2; [done|].
  change (qz 0) with 0%Qc. ring.
Qed.

Lemma delta_same_time_witness :
  calculate_result_delta length_hash "/tmp" (rate_on "db" "q" 60)
    (world_with (rate_on "db" "q" 60) (Pickled (new_run (qz 100) (VNum (qz 10)))))
  = (Raise ZeroDivisionError,
     World {[ make_pickle_name length_hash "/tmp" (rate_on "db" "q" 60)
              := File true true (Pickled (new_run (qz 100) (VNum (qz 10)))) ]}
       true every_ten_seconds 1 []).
Proof.
  apply (delta_same_time length_hash "/tmp" (rate_on "db" "q" 60)
           (world_with (rate_on "db" "q" 60)
              (Pickled (new_run (qz 100) (VNum (qz 10))))) (qz 60)
           (File true true (Pickled (new_run (qz 100) (VNum (qz 10)))))
           (new_run (qz 100) (VNum (qz 10))) (qz 100) (qz 10));
    first [reflexivity | discriminate | apply lookup_singleton_eq].
Defined.

(** X15: a state file that cannot be read but can be written is emptied by
    the attempt to create it, before the I/O fault is raised: the stored
    sample is lost.  One that can be neither read nor written is left alone. *)
Theorem delta_unreadable (hash : string -> Z) (tmpdir : string)
    (self : query_object) (w : world) (f : file) :
  files w !! make_pickle_name hash tmpdir self = Some f ->
  readable f = false ->
  calculate_result_delta hash tmpdir self w
  = (Raise IOError,
     if writable f
     then set_files (<[make_pickle_name hash tmpdir self := File false true Blank]>
                       (files w)) w
     else w).
Proof.
  intros Hfile Hr.
  unfold calculate_result_delta, bind, open_read, open_write, lift.
  rewrite Hfile, Hr. simpl. rewrite Hfile.
  destruct (writable f); simpl; [|done].
  rewrite lookup_insert_eq. simpl. by rewrite Hr.
Qed.

Lemma delta_unreadable_witness :
  calculate_result_delta length_hash "/tmp" (rate_on "db" "q" 60)
    (World {[ make_pickle_name length_hash "/tmp" (rate_on "db" "q" 60)
              := File false true (Pickled (new_run (qz 100) (VNum (qz 10)))) ]}
       true every_ten_seconds 0 [])
  = (Raise IOError,
     World {[ make_pickle_name length_hash "/tmp" (rate_on "db" "q" 60)
              := File false true Blank ]}
       true every_ten_seconds 0 []).
Proof.
  rewrite (delta_unreadable length_hash "/tmp" (rate_on "db" "q" 60) _
             (File false true (Pickled (new_run (qz 100) (VNum (qz 10)))))).
  - unfold set_files. simpl. by rewrite insert_singleton_eq.
  - apply lookup_singleton_eq.
  - reflexivity.
Defined.



(** X17: two runs of the same check in a row, the first without a state
    file: the first gives an absent result, the second the rate between the
    two samples over the time between the two readings, and the file ends up
    with the second sample alone. *)
Theorem delta_two_runs (hash : string -> Z) (tmpdir : string)
    (first second : query_object) (w : world) (x1 x2 : Qc) :
  make_pickle_name hash tmpdir second = make_pickle_name hash tmpdir first ->
  query_result first = Some (Scalar (VNum x1)) ->
  query_result second = Some (Scalar (VNum x2)) ->
  files w !! make_pickle_name hash tmpdir first = None ->
  creatable w = true ->
  time_src w (reads w) <> qz 0 ->
  time_src w (S (reads w)) <> time_src w (reads w) ->
  exists w1 w2,
    calculate_result_delta hash tmpdir first w = (Ok (set_result VNone first), w1) /\
    calculate_result_delta hash tmpdir second w1
    = (Ok (set_result
             (VNum ((x2 - x1) / (time_src w (S (reads w)) - time_src w (reads w))
                    * modifier second)%Qc)
             second), w2) /\
    files w2
    = <[make_pickle_name hash tmpdir first :=
          File true true
            (Pickled (new_run (time_src w (S (S (reads w)))) (VNum x2)))]>
        (files w) /\
    reads w2 = 3 + reads w.
Proof.
  intros Hname Hq1 Hq2 Hfile Hcreate Ht1 Ht2.
  set (name := make_pickle_name hash tmpdir first) in *.
  set (w1 := after_call name
               (File true true
                  (Pickled (new_run (time_src w (reads w)) (VNum x1)))) 1 w).
  exists w1,
    (after_call name
       (File true true
          (Pickled (new_run (time_src w (S (S (reads w)))) (VNum x2)))) 2 w1).
  split; [|split; [|split]].
  - by apply delta_no_file.
  - rewrite <- Hname.
    rewrite (delta_sample hash tmpdir second w1 x2
               (File true true
                  (Pickled (new_run (time_src w (reads w)) (VNum x1))))
               (new_run (time_src w (reads w)) (VNum x1))
               (time_src w (reads w)) x1); try done.
    rewrite Hname. apply lookup_after_call.
  - simpl. by rewrite insert_insert_eq.
  - simpl. lia.
Qed.

Lemma delta_two_runs_witness :
  exists w1 w2,
    calculate_result_delta length_hash "/tmp" (rate_on "db" "q" 10) fresh_world
    = (Ok (set_result VNone (rate_on "db" "q" 10)), w1) /\
    calculate_result_delta length_hash "/tmp" (rate_on "db" "q" 60) w1
    = (Ok (set_result
             (VNum ((qz 60 - qz 10) / (qz 110 - qz 100) * qz 1)%Qc)
             (rate_on "db" "q" 60)), w2).
Proof.
  destruct (delta_two_runs length_hash "/tmp" (rate_on "db" "q" 10)
              (rate_on "db" "q" 60) fresh_world (qz 10) (qz 60))
    as (w1 & w2 & H1 & H2 & _); try reflexivity; try discriminate.
  by exists w1, w2.
Defined.

Lemma str_length_app (s t : string) :
  String.length (s +:+ t) = String.length s + String.length t.
Proof.
  induction s as [|c s IH]; [done|]. rewrite str_app_cons. simpl. by rewrite IH.
Qed.

Lemma str_app_inj_r (s1 s2 t : string) : s1 +:+ t = s2 +:+ t -> s1 = s2.
Proof.
  revert s2. induction s1 as [|c s1 IH]; intros s2 H.
  - destruct s2 as [|c2 s2]; [done|]. exfalso.
    apply (f_equal String.length) in H.
    rewrite str_app_nil_l, str_app_cons in H. simpl in H.
    rewrite str_length_app in H. lia.
  - destruct s2 as [|c2 s2].
    + exfalso. apply (f_equal String.length) in H.
      rewrite str_app_nil_l, str_app_cons in H. simpl in H.
      rewrite str_length_app in H. lia.
    + rewrite !str_app_cons in H. injection H as -> H. f_equal. by apply IH.
Qed.

(** X18: two checks share a state file exactly when the hashes of their
    host name and query, put end to end, are equal. *)
Theorem pickle_name_iff_hash (hash : string -> Z) (tmpdir : string)
    (a b : query_object) :
  make_pickle_name hash tmpdir a = make_pickle_name hash tmpdir b <->
  hash (host a +:+ query a) = hash (host b +:+ query b).
Proof.
  unfold make_pickle_name. split.
  - intros H. apply (inj (String.app tmpdir)) in H.
    apply (inj (String.app "/mssql-")) in H.
    apply str_app_inj_r in H. by apply (inj pretty) in H.
  - by intros ->.
Qed.

(** ** More on the check runner *)

(** X19: a mode whose type is anything but ['delta'] or ['divide'] (no type
    at all included) is run as a direct check: its query is sent once and the
    first cell of the first row, times the modifier of the mode, is what gets
    reported, with the template, label and unit of the mode. *)
Theorem execute_query_runs_direct (float_str : Qc -> string)
    (hash : string -> Z) (tmpdir : string) (modes : gmap string mode_entry)
    (mssql : connection) (o : options) (h : string) (w : world)
    (md : string) (e : mode_entry) (x : Qc) (cells : list value)
    (rows : list (list value)) :
  mode o = Some md ->
  modes !! md = Some e ->
  m_type e <> Some "delta" -> m_type e <> Some "divide" ->
  mssql (m_query e) = Ok ((VNum x :: cells) :: rows) ->
  execute_query float_str hash tmpdir modes mssql o h w
  = (Raise (return_nagios float_str o (default "" (m_stdout e))
              (VNum (x * default (qz 1) (m_modifier e))%Qc)
              (default "" (m_unit e)) (default "" (m_label e))),
     sent (m_query e) w).
Proof.
  intros Hmode Hentry Hdelta Hdivide Hrows.
  unfold execute_query. rewrite Hmode. simpl. rewrite Hentry.
  rewrite !bool_decide_eq_false_2 by done.
  unfold do_, run_on_connection, calculate_result, calculate_result_query,
    finish, bind, cursor_execute, lift, ret, raise, sent, new.
  simpl. by rewrite Hrows.
Qed.

Lemma execute_query_runs_direct_witness :
  execute_query ratio_str length_hash "/tmp" more_modes (one_row 75)
    (Options "db" (Some "50") (Some "100") (Some "cpu")) "db" fresh_world
  = (Raise (return_nagios ratio_str
              (Options "db" (Some "50") (Some "100") (Some "cpu"))
              "Current CPU utilization is %s%%" (VNum (qz 75 * qz 1)%Qc)
              "%" "cpu"),
     sent CPU_QUERY fresh_world).
Proof.
  apply (execute_query_runs_direct ratio_str length_hash "/tmp" more_modes
           (one_row 75) _ "db" fresh_world "cpu"
           (ModeEntry "Server CPU utilization"
              (Some "Current CPU utilization is %s%%") (Some "cpu")
              (Some "%") None None CPU_QUERY) (qz 75) [] []);
    first [reflexivity | discriminate].
Defined.

Lemma MODES_entries (md : string) (e : mode_entry) :
  MODES !! md = Some e ->
  (md = "connections" \/ md = "cpu") /\
  m_type e <> Some "delta" /\ m_type e <> Some "divide" /\
  m_modifier e = None /\
  plain_template (default "" (m_stdout e)) = true /\
  (exists a b, default "" (m_stdout e) = a +:+ "%s" +:+ b /\
               no_percent a = true /\ plain_template b = true).
Proof.
  unfold MODES. intros H.
  destruct (decide (md = "connections")) as [-> | Hc].
  - rewrite lookup_insert_eq in H. injection H as <-. simpl.
    repeat split; try done; [by left|].
    by exists "Number of open connections is ", "".
  - rewrite lookup_insert_ne in H by done.
    destruct (decide (md = "cpu")) as [-> | Hu].
    + rewrite lookup_insert_eq in H. injection H as <-. simpl.
      repeat split; try done; [by right|].
      by exists "Current CPU utilization is ", "%%".
    + by rewrite lookup_insert_ne in H.
Qed.

(** X20: every mode of the table the script ships is a direct check without
    modifier and with a well-formed template: chosen, it sends its query and
    reports the first cell as it is, with a status of 0, 1 or 2 whenever the
    two thresholds are absent or well-formed. *)
Theorem execute_query_registered (float_str : Qc -> string)
    (hash : string -> Z) (tmpdir : string) (mssql : connection)
    (h host_ : string) (warn crit : option range_spec) (w : world)
    (md : string) (e : mode_entry) (x : Qc) (cells : list value)
    (rows : list (list value)) :
  MODES !! md = Some e ->
  mssql (m_query e) = Ok ((VNum x :: cells) :: rows) ->
  wf_threshold warn -> wf_threshold crit ->
  exists message code,
    execute_query float_str hash tmpdir MODES mssql
      (Options host_ (threshold_text warn) (threshold_text crit) (Some md)) h w
    = (Raise (NagiosReturn message code), sent (m_query e) w) /\
    (0 <= code <= 2)%Z /\
    return_nagios float_str
      (Options host_ (threshold_text warn) (threshold_text crit) (Some md))
      (default "" (m_stdout e)) (VNum x) (default "" (m_unit e))
      (default "" (m_label e))
    = NagiosReturn message code.
Proof.
  intros Hentry Hrows Hwarn Hcrit.
  destruct (MODES_entries md e Hentry) as (_ & Hdelta & Hdivide & Hmod & Hplain & _).
  set (o := Options host_ (threshold_text warn) (threshold_text crit) (Some md)).
  unfold execute_query. simpl mode. simpl. rewrite Hentry.
  rewrite !bool_decide_eq_false_2 by done.
  unfold do_, run_on_connection, calculate_result, calculate_result_query,
    finish, bind, cursor_execute, lift, ret, raise, sent, new.
  simpl. rewrite Hrows. simpl. rewrite Hmod. simpl.
  replace (x * qz 1)%Qc with x by (change (qz 1) with 1%Qc; ring).
  assert (Hcheck : forall t, wf_threshold t ->
    exists b, is_within_range (threshold_text t) (VNum x) = Ok b).
  { intros [r|] Hr; simpl; [|by exists false].
    exists (eval r (VNum x)). rewrite <- (str_app_nil_r (spec_text r)).
    apply is_within_range_spec_text; [done | by left]. }
  destruct (Hcheck crit Hcrit) as [c Hc]. destruct (Hcheck warn Hwarn) as [b Hb].
  destruct (return_nagios_severity float_str o (default "" (m_stdout e))
              (VNum x) (default "" (m_unit e)) (default "" (m_label e)) c b
              Hplain Hc (fun _ => Hb)) as [text Htext].
  eexists _, _. rewrite Htext. split; [reflexivity|]. split; [|reflexivity].
  unfold severity. destruct c, b; simpl; lia.
Qed.

Lemma execute_query_registered_witness :
  exists message code,
    execute_query ratio_str length_hash "/tmp" MODES (one_row 75)
      (Options "db" (Some "50") (Some "100") (Some "connections")) "db"
      fresh_world
    = (Raise (NagiosReturn message code), sent CON_QUERY fresh_world) /\
    (0 <= code <= 2)%Z.
Proof.
  destruct (execute_query_registered ratio_str length_hash "/tmp" (one_row 75)
              "db" "db" (Some (AtMost (FloatText false "50" "")))
              (Some (AtMost (FloatText false "100" ""))) fresh_world
              "connections"
              (ModeEntry "Number of open connections"
                 (Some "Number of open connections is %s") (Some "connections")
                 None (Some "standard") None CON_QUERY)
              (qz 75) [] [])
    as (message & code & Hrun & Hcode & _);
    [reflexivity | reflexivity | by repeat split | by repeat split |].
  by exists message, code.
Defined.

(** ** The self-test *)

Lemma only_sent_refl (w : world) : only_sent w w.
Proof. repeat split. by exists []. Qed.

Lemma only_sent_trans (w1 w2 w3 : world) :
  only_sent w1 w2 -> only_sent w2 w3 -> only_sent w1 w3.
Proof.
  intros (Hf1 & Hc1 & Ht1 & Hr1 & qs1 & He1) (Hf2 & Hc2 & Ht2 & Hr2 & qs2 & He2).
  repeat split; try congruence.
  exists (qs2 ++ qs1)%list. rewrite He2, He1. by rewrite <- List.app_assoc.
Qed.

Lemma execute_query_only_sent (float_str : Qc -> string) (hash : string -> Z)
    (tmpdir : string) (modes : gmap string mode_entry) (mssql : connection)
    (o : options) (h : string) (w : world) :
  only_sent w (snd (execute_query float_str hash tmpdir modes mssql o h w)).
Proof.
  unfold execute_query.
  destruct (mode o ≫= (modes !!.)) as [e|]; [|apply only_sent_refl].
  repeat case_bool_decide; try apply only_sent_refl.
  unfold do_, run_on_connection, calculate_result, calculate_result_query,
    finish, bind, cursor_execute, lift, ret, raise, new. simpl.
  assert (Hsent : only_sent w (sent (m_query e) w)).
  { repeat split. by exists [m_query e]. }
  repeat (case_match; simplify_eq/=); exact Hsent.
Qed.

Lemma run_tests_loop_spec (float_str : Qc -> string) (hash : string -> Z)
    (tmpdir : string) (exn_str : exn -> string)
    (modes : gmap string mode_entry) (mssql : connection) (h : string)
    (todo : list string) :
  forall (o : options) (failed total : nat) (w : world),
  exists f lines w',
    run_tests_loop float_str hash tmpdir exn_str modes mssql o h todo failed total w
    = (Ok (f, total + length todo, lines), w') /\
    failed <= f <= failed + length todo /\
    length lines <= length todo /\
    only_sent w w'.
Proof.
  induction todo as [|md todo IH]; intros o failed total w.
  - exists failed, [], w. simpl. unfold ret. rewrite Nat.add_0_r.
    repeat split; try lia. apply only_sent_refl.
  - simpl.
    pose proof (execute_query_only_sent float_str hash tmpdir modes mssql
                  (set_mode md o) h w) as Hsent.
    destruct (execute_query float_str hash tmpdir modes mssql (set_mode md o) h w)
      as [r w1]. simpl in Hsent.
    set (step := match r with
                 | Ok _ => (failed, [])
                 | Raise (NagiosReturn _ _) => (failed, [md +:+ " passed!"])
                 | Raise e => (S failed, [md +:+ " failed with: " +:+ exn_str e])
                 end).
    assert (Hstep : failed <= fst step <= S failed /\ length (snd step) <= 1).
    { subst step. destruct r as [?|[]]; simpl; lia. }
    destruct step as [failed' printed]. simpl in Hstep.
    destruct (IH (set_mode md o) failed' (S total) w1)
      as (f & lines & w' & -> & Hf & Hl & Hw).
    exists f, (printed ++ lines)%list, w'. repeat split; try lia.
    + by replace (total + S (length todo)) with (S total + length todo) by lia.
    + rewrite List.length_app. lia.
    + by apply (only_sent_trans w w1 w').
    + by apply (only_sent_trans w w1 w').
    + by apply (only_sent_trans w w1 w').
    + by apply (only_sent_trans w w1 w').
    + by apply (only_sent_trans w w1 w').
Qed.

(** X21: the self-test begins by deleting the modes ['time2connect'] and
    ['test'] from the table: with a table that lacks either, as the one the
    script ships does, it ends at once with a KeyError, no check run. *)
Theorem run_tests_missing_mode (float_str : Qc -> string) (hash : string -> Z)
    (tmpdir : string) (exn_str : exn -> string)
    (modes : gmap string mode_entry) (mssql : connection) (o : options)
    (h : string) (w : world) :
  modes !! "time2connect" = None \/ modes !! "test" = None ->
  run_tests float_str hash tmpdir exn_str modes mssql o h w = (Raise KeyError, w).
Proof.
  intros Hmiss. unfold run_tests, bind, lift, delitem.
  destruct (modes !! "time2connect") as [e|] eqn:Ht; [|done].
  destruct Hmiss as [Hmiss | Hmiss]; [done|].
  by rewrite lookup_delete_ne, Hmiss.
Qed.

Lemma run_tests_missing_mode_witness :
  run_tests ratio_str length_hash "/tmp" (fun _ => "") MODES (one_row 75)
    (Options "db" None None (Some "test")) "db" fresh_world
  = (Raise KeyError, fresh_world).
Proof.
  apply (run_tests_missing_mode ratio_str length_hash "/tmp" (fun _ => "") MODES).
  by left.
Defined.

(** X22: with both modes in the table, the self-test runs to its end: every
    fault of a check is caught and counted, the last line printed gives the
    failures out of the number of modes left (two less than the table had),
    at most one line is printed per mode before it, and no state file is
    touched. *)
Theorem run_tests_completes (float_str : Qc -> string) (hash : string -> Z)
    (tmpdir : string) (exn_str : exn -> string)
    (modes : gmap string mode_entry) (mssql : connection) (o : options)
    (h : string) (w : world) :
  is_Some (modes !! "time2connect") -> is_Some (modes !! "test") ->
  exists failed lines w',
    run_tests float_str hash tmpdir exn_str modes mssql o h w
    = (Ok (lines ++ [pretty failed +:+ "/" +:+ pretty (size modes - 2)
                     +:+ " tests failed."])%list, w') /\
    failed <= size modes - 2 /\
    length lines <= size modes - 2 /\
    only_sent w w'.
Proof.
  intros [e1 H1] [e2 H2]. unfold run_tests, bind, lift, delitem, ret.
  rewrite H1. rewrite lookup_delete_ne by done. rewrite H2.
  set (modes2 := delete "test" (delete "time2connect" modes)).
  assert (Hsize : length (map_to_list modes2).*1 = size modes - 2).
  { rewrite length_fmap, length_map_to_list. unfold modes2.
    rewrite map_size_delete, lookup_delete_ne, H2 by done.
    rewrite map_size_delete, H1. lia. }
  destruct (run_tests_loop_spec float_str hash tmpdir exn_str modes2 mssql h
              (map_to_list modes2).*1 o 0 0 w)
    as (f & lines & w' & -> & Hf & Hl & Hw).
  exists f, lines, w'. simpl. rewrite Hsize in *.
  repeat split; try lia; apply Hw.
Qed.

Lemma run_tests_completes_witness :
  exists failed lines w',
    run_tests ratio_str length_hash "/tmp" (fun _ => "") test_modes (one_row 75)
      (Options "db" None None (Some "test")) "db" fresh_world
    = (Ok (lines ++ [pretty failed +:+ "/" +:+ pretty (size test_modes - 2)
                     +:+ " tests failed."])%list, w') /\
    failed <= size test_modes - 2.
Proof.
  destruct (run_tests_completes ratio_str length_hash "/tmp" (fun _ => "")
              test_modes (one_row 75) (Options "db" None None (Some "test"))
              "db" fresh_world)
    as (failed & lines & w' & Hrun & Hfailed & _).
  - unfold test_modes. rewrite lookup_insert_eq. eexists. reflexivity.
  - unfold test_modes. rewrite lookup_insert_ne by discriminate.
    rewrite lookup_insert_eq. eexists. reflexivity.
  - exists failed, lines, w'. split; [exact Hrun | exact Hfailed].
Defined.

(** ** The main program *)

Lemma py_float_raises (s : string) (e : exn) :
  py_float s = Raise e -> e = ValueError.
Proof.
  unfold py_float. destruct (scan_float s) as [[f [|c r]]|]; by intros [= <-].
Qed.

Lemma action_raises (p : pattern) (v : value) (y : groups) (e : exn) :
  action p v y = Raise e -> e = ValueError.
Proof.
  destruct p; simpl;
    destruct (py_float (g_first y)) as [n|e1] eqn:H1;
    try (intros [= <-]; by apply (py_float_raises _ _ H1)); try done.
  - destruct (py_lt v n); [done|].
    destruct (py_float (g_second y)) as [m|e2] eqn:H2; [done|].
    intros [= <-]. by apply (py_float_raises _ _ H2).
  - destruct (py_lt v n); [done|].
    destruct (py_float (g_second y)) as [m|e2] eqn:H2; [done|].
    intros [= <-]. by apply (py_float_raises _ _ H2).
Qed.

Lemma first_match_raises (acts : list pattern) (s : string) (v : value)
    (e : exn) :
  first_match acts s v = Raise e -> e = ImproperFormat \/ e = ValueError.
Proof.
  induction acts as [|p rest IH]; simpl.
  - intros [= <-]. by left.
  - destruct (re_match p s) as [y|]; [|done].
    intros H. right. by apply (action_raises p v y).
Qed.

Lemma is_within_range_raises (t : option string) (v : value) (e : exn) :
  is_within_range t v = Raise e -> e = ImproperFormat \/ e = ValueError.
Proof.
  unfold is_within_range. destruct (not_nagstring t); [done|].
  apply first_match_raises.
Qed.

Lemma py_mod_from_raises (n : nat) (t arg : string) (used : bool) (e : exn) :
  String.length t <= n ->
  py_mod_from t arg used = Raise e -> e = TypeError \/ e = ValueError.
Proof.
  revert t used. induction n as [|n IH]; intros t used Hlen.
  - destruct t; [|simpl in Hlen; lia]. simpl. destruct used; [done|].
    intros [= <-]. by left.
  - destruct t as [|c t].
    { simpl. destruct used; [done|]. intros [= <-]. by left. }
    simpl in Hlen. destruct (decide (c = "%"%char)) as [-> | Hc].
    + destruct t as [|d t]; [intros [= <-]; by right|]. simpl in Hlen.
      change (py_mod_from (String "%" (String d t)) arg used) with
        (if bool_decide (d = "%"%char) then
           obind (py_mod_from t arg used) (fun r => Ok (String "%" r))
         else if bool_decide (d = "s"%char) then
           if used then Raise TypeError
           else obind (py_mod_from t arg true) (fun r => Ok (arg +:+ r))
         else if numeric_conversion d then Raise TypeError
         else Raise ValueError).
      case_bool_decide; [|case_bool_decide].
      * destruct (py_mod_from t arg used) eqn:Hrec; simpl; [done|].
        intros [= <-]. apply (IH t used); [lia | done].
      * destruct used; [intros [= <-]; by left|].
        destruct (py_mod_from t arg true) eqn:Hrec; simpl; [done|].
        intros [= <-]. apply (IH t true); [lia | done].
      * destruct (numeric_conversion d); intros [= <-]; [by left | by right].
    + rewrite py_mod_from_step by done.
      destruct (py_mod_from t arg used) eqn:Hrec; simpl; [done|].
      intros [= <-]. apply (IH t used); [lia | done].
Qed.

Lemma return_nagios_classified (float_str : Qc -> string) (o : options)
    (tpl : string) (res : value) (unit_ label : string) :
  classified (return_nagios float_str o tpl res unit_ label).
Proof.
  unfold return_nagios.
  destruct (is_within_range (critical o) res) as [c|e] eqn:Hc; simpl.
  2: { by destruct (is_within_range_raises _ _ _ Hc) as [-> | ->]. }
  assert (Hfmt : forall prefix code, (0 <= code <= 2)%Z ->
    classified
      match
        obind (match py_mod tpl (py_str float_str res) with
               | Ok s => Ok s
               | Raise TypeError => Ok tpl
               | Raise e => Raise e
               end)
          (fun stdout' =>
             Ok (NagiosReturn
                   (prefix +:+ stdout' +:+ "|" +:+ label +:+ "=" +:+
                    py_str float_str res +:+ unit_ +:+ ";" +:+
                    default "" (warning o) +:+ ";" +:+
                    default "" (critical o) +:+ ";;") code))
      with
      | Ok e => e
      | Raise e => e
      end).
  { intros prefix code Hcode.
    destruct (py_mod tpl (py_str float_str res)) as [s|e] eqn:Hm; [done|].
    destruct (py_mod_from_raises _ _ _ _ _ (Nat.le_refl _) Hm) as [-> | ->]; done. }
  destruct c; simpl; [by apply Hfmt|].
  destruct (is_within_range (warning o) res) as [b|e] eqn:Hw; simpl.
  2: { by destruct (is_within_range_raises _ _ _ Hw) as [-> | ->]. }
  destruct b; simpl; by apply Hfmt.
Qed.

Lemma classified_status (e : exn) :
  classified e -> (0 <= exit_status (Raise e) <= 3)%Z.
Proof. destruct e; simpl; lia. Qed.

Lemma execute_query_classified (float_str : Qc -> string) (hash : string -> Z)
    (tmpdir : string) (modes : gmap string mode_entry) (mssql : connection)
    (o : options) (h : string) (w : world) (e : exn) :
  (forall q, match mssql q with Raise (NagiosReturn _ _) => False | _ => True end) ->
  fst (execute_query float_str hash tmpdir modes mssql o h w) = Raise e ->
  classified e.
Proof.
  intros Hconn. unfold execute_query.
  destruct (mode o ≫= (modes !!.)) as [entry|]; [|by intros [= <-]].
  repeat case_bool_decide; try done.
  unfold do_, run_on_connection, calculate_result, calculate_result_query,
    finish, bind, cursor_execute, lift, ret, raise, new. simpl.
  specialize (Hconn (m_query entry)).
  repeat (case_match; simplify_eq/=); intros [= <-]; try done;
    first [ apply return_nagios_classified
          | match goal with
            | H : py_float_of ?v = Raise _ |- _ => by destruct v; simplify_eq/=
            end ].
Qed.

Lemma run_tests_raises (float_str : Qc -> string) (hash : string -> Z)
    (tmpdir : string) (exn_str : exn -> string)
    (modes : gmap string mode_entry) (mssql : connection) (o : options)
    (h : string) (w : world) (e : exn) :
  fst (run_tests float_str hash tmpdir exn_str modes mssql o h w) = Raise e ->
  e = KeyError.
Proof.
  unfold run_tests, bind, lift, ret, delitem.
  destruct (modes !! "time2connect"); simpl; [|by intros [= <-]].
  destruct (delete "time2connect" modes !! "test"); simpl; [|by intros [= <-]].
  destruct (run_tests_loop_spec float_str hash tmpdir exn_str
              (delete "test" (delete "time2connect" modes)) mssql h
              (map_to_list (delete "test" (delete "time2connect" modes))).*1
              o 0 0 w) as (f & lines & w' & -> & _).
  done.
Qed.

Lemma main_parsed_classified (float_str : Qc -> string) (hash : string -> Z)
    (tmpdir : string) (exn_str : exn -> string) (psycopg2_connect : connector)
    (modes : gmap string mode_entry) (p : parsed) (w : world) (e : exn) :
  foreign psycopg2_connect ->
  fst (main_parsed float_str hash tmpdir exn_str psycopg2_connect modes p w)
  = Raise e ->
  classified e.
Proof.
  intros Hforeign. unfold main_parsed, connect_db, bind, lift, time_time, ret.
  simpl.
  specialize (Hforeign (hostname (p_options p)) (p_port p) (p_user p)
                (p_password p)).
  destruct (psycopg2_connect (hostname (p_options p)) (p_port p) (p_user p)
              (p_password p)) as [conn|e0]; simpl.
  2: { intros [= <-]. by destruct e0. }
  case_bool_decide.
  { intros H1. by rewrite (run_tests_raises _ _ _ _ _ _ _ _ _ _ H1). }
  destruct (falsy (mode (p_options p))
            || bool_decide (mode (p_options p) = Some "time2connect")).
  { unfold raise. simpl. intros [= <-]. apply return_nagios_classified. }
  match goal with
  | |- context [execute_query ?f ?hs ?t ?m ?c ?o ?h ?w0] =>
      pose proof (execute_query_classified f hs t m c o h w0) as Hex;
      destruct (execute_query f hs t m c o h w0) as [[u|e1] w1]; simpl in *
  end; [done|].
  intros [= <-]. by apply Hex.
Qed.

(** X23: with no mode chosen (or the mode ['time2connect']) [main] connects
    and reports the time the connection took: the difference of the two
    readings of the clock around [psycopg2.connect], checked against the
    thresholds; no query is sent and the clock is read twice. *)
Theorem main_time_to_connect (float_str : Qc -> string) (hash : string -> Z)
    (tmpdir : string) (exn_str : exn -> string) (psycopg2_connect : connector)
    (modes : gmap string mode_entry) (a : arguments) (p : parsed)
    (conn : connection) (w : world) (c b : bool) :
  parse_args a = Accept p ->
  falsy (mode (p_options p)) = true \/
    mode (p_options p) = Some "time2connect" ->
  psycopg2_connect (hostname (p_options p)) (p_port p) (p_user p) (p_password p)
  = Ok conn ->
  is_within_range (critical (p_options p)) (VNum (elapsed w)) = Ok c ->
  (c = false ->
   is_within_range (warning (p_options p)) (VNum (elapsed w)) = Ok b) ->
  main float_str hash tmpdir exn_str psycopg2_connect modes a w
  = (Finished
       (Raise
          (NagiosReturn
             (report_line (fst (severity c b))
                ("Time to connect was " +:+ float_str (elapsed w) +:+ "s")
                "time" (float_str (elapsed w)) "s" (p_options p))
             (snd (severity c b)))),
     later 2 w).
Proof.
  intros Hp Hmode Hconn Hc Hb. unfold main. rewrite Hp.
  unfold main_parsed, connect_db, bind, lift, time_time, ret. simpl.
  rewrite Hconn. simpl.
  assert (Htest : mode (p_options p) <> Some "test").
  { destruct Hmode as [H | ->]; [|done]. intros Heq. by rewrite Heq in H. }
  rewrite bool_decide_false by done.
  assert (Hbranch : falsy (mode (p_options p))
                    || bool_decide (mode (p_options p) = Some "time2connect")
                    = true).
  { destruct Hmode as [-> | ->]; [done|].
    rewrite bool_decide_true by done. by rewrite orb_true_r. }
  rewrite Hbranch. unfold raise, later. simpl. do 3 f_equal.
  apply (return_nagios_report float_str (p_options p) _ _ "s" "time" _ c b Hc Hb).
  left. reflexivity.
Qed.

Lemma main_time_to_connect_witness :
  main ratio_str length_hash "/tmp" (fun _ => "") (sample_connector 75) MODES
    (sample_arguments [("connections", false); ("cpu", false)]) fresh_world
  = (Finished
       (Raise (NagiosReturn "OK: Time to connect was 10/1s|time=10/1s;50;100;;" 0)),
     later 2 fresh_world).
Proof.
  apply (main_time_to_connect ratio_str length_hash "/tmp" (fun _ => "")
           (sample_connector 75) MODES
           (sample_arguments [("connections", false); ("cpu", false)])
           (Parsed (Options "db" (Some "50") (Some "100") None) "nagios" "secret"
              None (Some "5432"))
           (one_row 75) fresh_world false false).
  - reflexivity.
  - left. reflexivity.
  - reflexivity.
  - reflexivity.
  - intros _. reflexivity.
Defined.

(** X24: whatever the command line, the mode table, the files and the
    server's answers, the script ends with a status between 0 and 3, provided
    the driver itself does not raise the script's [NagiosReturn]: a usage
    error gives 2, a report 0, 1 or 2, any other exception 3, and a normal
    return 0. *)
Theorem script_status_range (float_str : Qc -> string) (hash : string -> Z)
    (tmpdir : string) (exn_str : exn -> string) (psycopg2_connect : connector)
    (modes : gmap string mode_entry) (a : arguments) (w : world) :
  foreign psycopg2_connect ->
  (0 <= script_status
          (fst (main float_str hash tmpdir exn_str psycopg2_connect modes a w))
     <= 3)%Z.
Proof.
  intros Hforeign. unfold main.
  destruct (parse_args a) as [p|msg]; simpl; [|lia].
  pose proof (main_parsed_classified float_str hash tmpdir exn_str
                psycopg2_connect modes p w) as Hcl.
  destruct (main_parsed float_str hash tmpdir exn_str psycopg2_connect modes p w)
    as [[lines|e] w']; simpl in *; [lia|].
  apply classified_status. by apply Hcl.
Qed.

Lemma script_status_range_witness :
  (0 <= script_status
          (fst (main ratio_str length_hash "/tmp" (fun _ => "")
                  (sample_connector 75) MODES
                  (sample_arguments [("connections", true); ("cpu", false)])
                  fresh_world))
     <= 3)%Z.
Proof.
  apply (script_status_range ratio_str length_hash "/tmp" (fun _ => "")
           (sample_connector 75) MODES
           (sample_arguments [("connections", true); ("cpu", false)])
           fresh_world).
  intros h port user password q. exact I.
Defined.

Lemma chosen_flag (flags : list (string * bool)) (d : string) :
  d ∈ chosen flags -> (d, true) ∈ flags.
Proof.
  induction flags as [|[d' b] flags IH]; [by intros ?%elem_of_nil|].
  rewrite chosen_cons. destruct b.
  - intros [-> | H]%elem_of_cons; [by left | right; by apply IH].
  - intros H. right. by apply IH.
Qed.

Lemma parse_args_mode (a : arguments) (p : parsed) :
  Forall (fun d => d <> "") (chosen (arg_flags a)) ->
  parse_args a = Accept p ->
  mode (p_options p) = head (chosen (arg_flags a)).
Proof.
  intros Hne. unfold parse_args. rewrite (select_mode_free _ Hne).
  destruct (falsy (arg_hostname a)); [done|].
  destruct (falsy (arg_user a)); [done|].
  destruct (falsy (arg_password a)); [done|].
  destruct (negb (falsy (arg_instance a)) && negb (falsy (arg_port a))); [done|].
  destruct (chosen (arg_flags a)) as [|d [|d' l]]; simpl; try done;
    by intros [= <-].
Qed.

(** X25: the mode options being those of the table the script ships (line
    190), the script never ends by returning: every run is a usage error, a
    report, or a fault.  The self-test cannot be reached, since the table has
    no mode ['test'] to make an option of, and both shipped modes are direct
    checks, which end in [return_nagios]. *)
Theorem main_never_returns (float_str : Qc -> string) (hash : string -> Z)
    (tmpdir : string) (exn_str : exn -> string) (psycopg2_connect : connector)
    (a : arguments) (w : world) :
  Forall (fun df => is_Some (MODES !! fst df)) (arg_flags a) ->
  (exists message,
     fst (main float_str hash tmpdir exn_str psycopg2_connect MODES a w)
     = Usage message) \/
  (exists e,
     fst (main float_str hash tmpdir exn_str psycopg2_connect MODES a w)
     = Finished (Raise e)).
Proof.
  intros Hflags. unfold main.
  destruct (parse_args a) as [p|msg] eqn:Hp; [|left; by exists msg].
  right.
  assert (Hkeys : forall d, d ∈ chosen (arg_flags a) -> is_Some (MODES !! d)).
  { intros d Hd%chosen_flag. rewrite Forall_forall in Hflags.
    apply (Hflags (d, true)), Hd. }
  assert (Hne : Forall (fun d => d <> "") (chosen (arg_flags a))).
  { apply Forall_forall. intros d Hd. destruct (Hkeys d Hd) as [e He].
    by destruct (MODES_entries d e He) as ([-> | ->] & _). }
  pose proof (parse_args_mode a p Hne Hp) as Hmode.
  unfold main_parsed, connect_db, bind, lift, time_time, ret. simpl.
  destruct (psycopg2_connect (hostname (p_options p)) (p_port p) (p_user p)
              (p_password p)) as [conn|e0]; simpl; [|by exists e0].
  rewrite Hmode.
  destruct (chosen (arg_flags a)) as [|d l] eqn:Hch; [by eexists|].
  change (head (d :: l)) with (Some d).
  destruct (Hkeys d) as [e He]; [by left|].
  destruct (MODES_entries d e He) as (Hd & Ht1 & Ht2 & _).
  rewrite bool_decide_false by (by destruct Hd as [-> | ->]).
  assert (Hfalsy : falsy (Some d) = false) by (by destruct Hd as [-> | ->]).
  rewrite Hfalsy. simpl.
  rewrite bool_decide_false by (by destruct Hd as [-> | ->]).
  unfold execute_query. rewrite Hmode.
  change (head (d :: l) ≫= (MODES !!.)) with (MODES !! d). rewrite He.
  cbv zeta.
  rewrite !bool_decide_false by done.
  match goal with
  | |- context [do_ ?f ?hs ?t ?q ?c ?w0] =>
      destruct (do_never_returns f hs t q c w0) as (e1 & w1 & ->)
  end.
  by exists e1.
Qed.

Lemma main_never_returns_witness :
  (exists message,
     fst (main ratio_str length_hash "/tmp" (fun _ => "") (sample_connector 75)
            MODES (sample_arguments [("connections", false); ("cpu", true)])
            fresh_world)
     = Usage message) \/
  (exists e,
     fst (main ratio_str length_hash "/tmp" (fun _ => "") (sample_connector 75)
            MODES (sample_arguments [("connections", false); ("cpu", true)])
            fresh_world)
     = Finished (Raise e)).
Proof.
  apply (main_never_returns ratio_str length_hash "/tmp" (fun _ => "")
           (sample_connector 75)
           (sample_arguments [("connections", false); ("cpu", true)])
           fresh_world).
  repeat constructor; simpl.
  - unfold MODES. rewrite lookup_insert_eq. eexists. reflexivity.
  - unfold MODES. rewrite lookup_insert_ne by discriminate.
    rewrite lookup_insert_eq. eexists. reflexivity.
Defined.
